(** * OAuth2 session manager (oauth2-client.ts): a shallow embedding

    The class [OAuth2Client] drives the Authorization Code flow with PKCE
    from a browser.  Its methods are embedded as Rocq functions over an
    explicit state: the two private token fields of the object, the two
    Web Storage areas, the current location and the log of requests sent
    to the token endpoint.  Host facilities the class only calls
    (the random byte source, the digest, the clock, the network, JSON and
    base64 decoding) are inputs of the embedded functions.

    JavaScript strings are modelled by [string]; a character stands for one
    code unit below 256.  Numbers that the code handles are integers (epoch
    milliseconds, seconds, HTTP statuses) and are modelled by [Z] or [N];
    the model is exact where double arithmetic is, that is for integers of
    magnitude below 2^53. *)

From Stdlib Require Import ZArith NArith Ascii String Strings.Byte.
From Stdlib Require Import DecimalString HexadecimalString.
From Stdlib Require Import Decimal DecimalPos.
From stdpp Require Import base option gmap strings list.

Local Open Scope string_scope.

(** ** Language primitives on strings and numbers *)

Module JS.

(** Truthiness of a string value: only the empty string is falsy. *)
Definition truthy (s : string) : bool :=
  match s with
  | EmptyString => false
  | String _ _ => true
  end.

(** Truthiness of [string | null]: [null] and [""] are falsy. *)
Definition truthy_opt (o : option string) : bool :=
  match o with
  | None => false
  | Some s => truthy s
  end.

(** [a || null] on [string | undefined]. *)
Definition or_null (o : option string) : option string :=
  if truthy_opt o then o else None.

(** [Array.prototype.join('')]. *)
Definition join (parts : list string) : string :=
  String.concat "" parts.

(** [s.slice(0, n)] and [s.substring(0, n)] for a count [n]. *)
Definition prefix (n : nat) (s : string) : string :=
  String.substring 0 n s.

(** [pad.repeat(..)] cut to [n] characters, as [padStart] builds its
    filler: the pad string is cycled. *)
Fixpoint filler (n : nat) (pad cur : string) : string :=
  match n with
  | O => EmptyString
  | S n' =>
      match cur with
      | String c rest => String c (filler n' pad rest)
      | EmptyString =>
          match pad with
          | String c rest => String c (filler n' pad rest)
          | EmptyString => EmptyString
          end
      end
  end.

(** [s.padStart(target, pad)]. *)
Definition padStart (target : nat) (pad : string) (s : string) : string :=
  if (target <=? String.length s)%nat then s
  else filler (target - String.length s) pad pad +:+ s.

(** [n.toString(16)] on a non-negative integer. *)
Definition Number_toString16 (n : N) : string :=
  HexadecimalString.NilEmpty.string_of_uint (N.to_hex_uint n).

(** [n.toString()] on an integer that a JavaScript number holds exactly:
    the host prints it in decimal digits.  (A number from 10^21 on is
    printed in exponent form, and an integer of magnitude above 2^53 may
    not be a number at all; properties that depend on the printed
    value are stated for safe integers, see [Number_isSafeInteger].) *)
Definition Number_toString (z : Z) : string :=
  DecimalString.NilEmpty.string_of_int (Z.to_int z).

(** Every character of the string satisfies [p]. *)
Fixpoint all_chars (p : ascii -> bool) (s : string) : bool :=
  match s with
  | EmptyString => true
  | String c rest => p c && all_chars p rest
  end.

(** The lower-case hexadecimal alphabet [0-9a-f]. *)
Definition is_hex_char (c : ascii) : bool :=
  let n := N_of_ascii c in
  ((48 <=? n) && (n <=? 57) || (97 <=? n) && (n <=? 102))%N.

(** [s.replace(/c/g, r)] for a one-character pattern [c]. *)
Fixpoint replace_all (c : ascii) (r : string) (s : string) : string :=
  match s with
  | EmptyString => EmptyString
  | String a rest =>
      (if Ascii.eqb a c then r else String a EmptyString)
        +:+ replace_all c r rest
  end.

(** [s.split(sep)] for a one-character separator; the result is never
    the empty array. *)
Fixpoint split (sep : ascii) (s : string) : list string :=
  match s with
  | EmptyString => [EmptyString]
  | String a rest =>
      if Ascii.eqb a sep then EmptyString :: split sep rest
      else
        match split sep rest with
        | first :: others => String a first :: others
        | [] => [String a EmptyString]
        end
  end.

(** White space that [parseInt] skips, among the code units below 256. *)
Definition is_white_space (c : ascii) : bool :=
  let n := N_of_ascii c in
  ((9 <=? n) && (n <=? 13) || (n =? 32) || (n =? 160))%N.

Fixpoint skip_white_space (s : string) : string :=
  match s with
  | EmptyString => EmptyString
  | String c rest => if is_white_space c then skip_white_space rest else s
  end.

(** Value of a digit in the given radix, if it is one. *)
Definition digit_value (radix : N) (c : ascii) : option N :=
  let n := N_of_ascii c in
  let v :=
    if ((48 <=? n) && (n <=? 57))%N then Some (n - 48)%N
    else if ((97 <=? n) && (n <=? 122))%N then Some (n - 87)%N
    else if ((65 <=? n) && (n <=? 90))%N then Some (n - 55)%N
    else None in
  match v with
  | Some d => if (d <? radix)%N then Some d else None
  | None => None
  end.

(** The longest prefix of digits, read in the radix; [acc] is [None]
    until a digit has been read. *)
Fixpoint parse_digits (radix : N) (acc : option N) (s : string) : option N :=
  match s with
  | EmptyString => acc
  | String c rest =>
      match digit_value radix c with
      | Some d => parse_digits radix (Some (radix * default 0%N acc + d)%N) rest
      | None => acc
      end
  end.

(** [parseInt(s)] without a radix argument; [None] stands for [NaN].
    The mathematical value of the digits is returned.  The host rounds
    it to a double, which does not change how it compares with an
    integer of magnitude below 2^53 such as [Date.now()]. *)
Definition parseInt (s : string) : option Z :=
  let s1 := skip_white_space s in
  let '(sign, s2) :=
    match s1 with
    | String "-" rest => ((-1)%Z, rest)
    | String "+" rest => (1%Z, rest)
    | _ => (1%Z, s1)
    end in
  let '(radix, s3) :=
    match s2 with
    | String "0" (String "x" rest) => (16%N, rest)
    | String "0" (String "X" rest) => (16%N, rest)
    | _ => (10%N, s2)
    end in
  match parse_digits radix None s3 with
  | Some n => Some (sign * Z.of_N n)%Z
  | None => None
  end.

(** [a > b] on numbers where [b] may be [NaN]. *)
Definition number_gt (a : Z) (b : option Z) : bool :=
  match b with
  | Some v => (v <? a)%Z
  | None => false
  end.

End JS.

(** ** Browser facilities: base64, query parameters *)

Module Host.

Definition b64_alphabet : string :=
  "ABCDEFGHIJKLMNOPQRSTUVWXYZabcdefghijklmnopqrstuvwxyz0123456789+/".

(** The character of the standard base64 alphabet for a 6-bit value. *)
Definition b64_char (v : N) : ascii :=
  match String.get (N.to_nat v) b64_alphabet with
  | Some c => c
  | None => "="%char
  end.

(** [btoa(s)]: standard base64 with [=] padding.  Every character of a
    modelled string is a code unit below 256, the only inputs on which
    the host function does not throw. *)
Fixpoint btoa (s : string) : string :=
  match s with
  | EmptyString => EmptyString
  | String a EmptyString =>
      let x := N_of_ascii a in
      String (b64_char (x / 4))
        (String (b64_char ((x mod 4) * 16)) "==")
  | String a (String b EmptyString) =>
      let x := N_of_ascii a in
      let y := N_of_ascii b in
      String (b64_char (x / 4))
        (String (b64_char ((x mod 4) * 16 + y / 16))
           (String (b64_char ((y mod 16) * 4)) "="))
  | String a (String b (String c rest)) =>
      let x := N_of_ascii a in
      let y := N_of_ascii b in
      let z := N_of_ascii c in
      String (b64_char (x / 4))
        (String (b64_char ((x mod 4) * 16 + y / 16))
           (String (b64_char ((y mod 16) * 4 + z / 64))
              (String (b64_char (z mod 64)) (btoa rest))))
  end%N.

(** [String.fromCharCode(...bytes)]. *)
Definition fromCharCode (bytes : list byte) : string :=
  string_of_list_byte bytes.

(** [URLSearchParams]: the decoded name/value pairs in query order. *)
Definition URLSearchParams : Type := list (string * string).

(** [params.get(name)]: the first value for the name, or [null]. *)
Fixpoint params_get (name : string) (params : URLSearchParams) : option string :=
  match params with
  | [] => None
  | (k, v) :: rest => if String.eqb k name then Some v else params_get name rest
  end.

End Host.

(** ** Challenge generator *)

(** [crypto.getRandomValues(new Uint8Array(length))]: the array is filled
    by the host; [rng i] is the byte the host puts at index [i].  The
    host fills an array of at most 65536 bytes and throws for a longer
    one; the class asks for 32 and 128 bytes, and properties stated for
    a length in general carry that bound. *)
Definition getRandomValues (length : nat) (rng : nat -> byte) : list byte :=
  map rng (seq 0 length).

(** [generateRandomString(length)]. *)
Definition generateRandomString (length : nat) (rng : nat -> byte) : string :=
  let array := getRandomValues length rng in
  let result :=
    JS.join (map (fun b => JS.padStart 2 "_" (JS.Number_toString16 (Byte.to_N b))) array) in
  JS.prefix length result.

(** ** Data model *)

Record AuthConfig := {
  clientId : string;
  redirectUri : string;
  authorizationEndpoint : string;
  tokenEndpoint : string;
  scope : option string
}.

Record TokenResponse := {
  access_token : string;
  token_type : string;
  expires_in : option Z;
  refresh_token : option string;
  response_scope : option string
}.

(** A thrown value: [new Error(message)] raised by the class itself, or an
    exception raised by the host (a rejected [fetch], a [SyntaxError] of
    the JSON parser, ...). *)
Inductive exn :=
| Error (message : string)
| HostError (name message : string).

(** How a call completes. *)
Inductive outcome (A : Type) :=
| Return (a : A)
| Throw (e : exn).
Arguments Return {A} a.
Arguments Throw {A} e.

(** The request that [exchangeCodeForToken] hands to [fetch]; [body] holds
    the form parameters before they are serialised. *)
Record Request := {
  url : string;
  method : string;
  content_type : string;
  body : Host.URLSearchParams
}.

(** A response of the token endpoint: its status, what [response.text()]
    gives and how [response.json()] completes. *)
Record Response := {
  status : N;
  text : string;
  json : outcome TokenResponse
}.

(** [response.ok]: the status is in the range 200-299. *)
Definition ok (response : Response) : bool :=
  ((200 <=? status response) && (status response <=? 299))%N.

(** How the promise returned by [fetch] settles. *)
Inductive FetchResult :=
| Rejected (e : exn)
| Fulfilled (response : Response).

(** One line written by [console.error]. *)
Inductive LogEntry :=
| LogText (label value : string)
| LogExn (label : string) (e : exn).

(** The state the methods read and write: the private fields
    [accessToken] and [refreshToken] of the client object, [localStorage],
    [sessionStorage], the path and query of [window.location], the
    address a navigation was started to, the requests given to [fetch]
    and the console. *)
Record State := mkState {
  accessToken : option string;
  refreshToken : option string;
  localStorage : gmap string string;
  sessionStorage : gmap string string;
  pathname : string;
  search : Host.URLSearchParams;
  href : option (string * Host.URLSearchParams);
  requests : list Request;
  console : list LogEntry
}.

Definition with_accessToken (v : option string) (st : State) : State :=
  mkState v (refreshToken st) (localStorage st) (sessionStorage st)
    (pathname st) (search st) (href st) (requests st) (console st).

Definition with_refreshToken (v : option string) (st : State) : State :=
  mkState (accessToken st) v (localStorage st) (sessionStorage st)
    (pathname st) (search st) (href st) (requests st) (console st).

Definition with_localStorage (v : gmap string string) (st : State) : State :=
  mkState (accessToken st) (refreshToken st) v (sessionStorage st)
    (pathname st) (search st) (href st) (requests st) (console st).

Definition with_sessionStorage (v : gmap string string) (st : State) : State :=
  mkState (accessToken st) (refreshToken st) (localStorage st) v
    (pathname st) (search st) (href st) (requests st) (console st).

Definition with_location (p : string) (q : Host.URLSearchParams) (st : State) : State :=
  mkState (accessToken st) (refreshToken st) (localStorage st) (sessionStorage st)
    p q (href st) (requests st) (console st).

Definition with_href (v : option (string * Host.URLSearchParams)) (st : State) : State :=
  mkState (accessToken st) (refreshToken st) (localStorage st) (sessionStorage st)
    (pathname st) (search st) v (requests st) (console st).

Definition with_requests (v : list Request) (st : State) : State :=
  mkState (accessToken st) (refreshToken st) (localStorage st) (sessionStorage st)
    (pathname st) (search st) (href st) v (console st).

Definition with_console (v : list LogEntry) (st : State) : State :=
  mkState (accessToken st) (refreshToken st) (localStorage st) (sessionStorage st)
    (pathname st) (search st) (href st) (requests st) v.

(** ** Computations: state passing with exceptions

    A thrown exception keeps the writes made before it. *)

Definition M (A : Type) : Type := State -> outcome A * State.

Definition ret {A} (a : A) : M A := fun st => (Return a, st).

Definition throw {A} (e : exn) : M A := fun st => (Throw e, st).

Definition bind {A B} (m : M A) (k : A -> M B) : M B :=
  fun st =>
    match m st with
    | (Return a, st') => k a st'
    | (Throw e, st') => (Throw e, st')
    end.

Notation "'do' x <- m ; k" := (bind m (fun x => k))
  (at level 10, x name, m at level 100, k at level 200).
Notation "m >> k" := (bind m (fun _ => k))
  (at level 100, k at level 200, right associativity).

(** [try { body } catch (error) { handler }]. *)
Definition try_catch {A} (body : M A) (handler : exn -> M A) : M A :=
  fun st =>
    match body st with
    | (Return a, st') => (Return a, st')
    | (Throw e, st') => handler e st'
    end.

(** A host call that completes without touching the state. *)
Definition lift {A} (o : outcome A) : M A := fun st => (o, st).

Definition gets {A} (f : State -> A) : M A := fun st => (Return (f st), st).

Definition modify (f : State -> State) : M unit := fun st => (Return tt, f st).

Definition when (b : bool) (m : M unit) : M unit := if b then m else ret tt.

(** Web Storage: [getItem], [setItem], [removeItem] on either area, on
    a host whose storage has room for what is written: [setItem] does
    not throw here.  (On a full storage it throws, which in
    [exchangeCodeForToken] would come after the token fields were
    assigned; properties about failures name the failures they cover.) *)
Definition localStorage_getItem (key : string) : M (option string) :=
  gets (fun st => localStorage st !! key).

Definition localStorage_setItem (key value : string) : M unit :=
  modify (fun st => with_localStorage (<[key := value]> (localStorage st)) st).

Definition localStorage_removeItem (key : string) : M unit :=
  modify (fun st => with_localStorage (delete key (localStorage st)) st).

Definition sessionStorage_getItem (key : string) : M (option string) :=
  gets (fun st => sessionStorage st !! key).

Definition sessionStorage_setItem (key value : string) : M unit :=
  modify (fun st => with_sessionStorage (<[key := value]> (sessionStorage st)) st).

Definition sessionStorage_removeItem (key : string) : M unit :=
  modify (fun st => with_sessionStorage (delete key (sessionStorage st)) st).

Definition console_error (entry : LogEntry) : M unit :=
  modify (fun st => with_console (console st ++ [entry]) st).

(** [await fetch(..)]: the request is recorded, the network answers. *)
Definition do_fetch (fetch : Request -> FetchResult) (request : Request) : M Response :=
  modify (fun st => with_requests (requests st ++ [request]) st) >>
  match fetch request with
  | Rejected e => throw e
  | Fulfilled response => ret response
  end.

(** ** The session manager: token state *)

(** [getAccessToken()]. *)
Definition getAccessToken (st : State) : option string := accessToken st.

(** [isAuthenticated()]: [this.accessToken !== null]. *)
Definition isAuthenticated (st : State) : bool :=
  match accessToken st with
  | Some _ => true
  | None => false
  end.

(** [logout()]. *)
Definition logout : M unit :=
  modify (with_accessToken None) >>
  modify (with_refreshToken None) >>
  localStorage_removeItem "access_token" >>
  localStorage_removeItem "refresh_token" >>
  localStorage_removeItem "token_expires_at" >>
  do path <- gets pathname;
  when (String.eqb path "/callback") (modify (with_location "/" [])).

(** [saveTokensToStorage(tokenResponse)]; [now] is what [Date.now()]
    returns.  The sum is the one the code computes as long as [now], the
    product and the sum are safe integers, where number arithmetic is
    exact; properties about the stored instant carry that range. *)
Definition saveTokensToStorage (now : Z) (tokenResponse : TokenResponse) : M unit :=
  localStorage_setItem "access_token" (access_token tokenResponse) >>
  match refresh_token tokenResponse with
  | Some r => when (JS.truthy r) (localStorage_setItem "refresh_token" r)
  | None => ret tt
  end >>
  match expires_in tokenResponse with
  | Some seconds =>
      when (negb (seconds =? 0)%Z)
        (let expiresAt := (now + seconds * 1000)%Z in
         localStorage_setItem "token_expires_at" (JS.Number_toString expiresAt))
  | None => ret tt
  end.

(** [loadTokensFromStorage()]; [now] is what [Date.now()] returns. *)
Definition loadTokensFromStorage (now : Z) : M unit :=
  do a <- localStorage_getItem "access_token";
  modify (with_accessToken a) >>
  do r <- localStorage_getItem "refresh_token";
  modify (with_refreshToken r) >>
  do expiresAt <- localStorage_getItem "token_expires_at";
  match expiresAt with
  | Some e => when (JS.truthy e && JS.number_gt now (JS.parseInt e)) logout
  | None => ret tt
  end.

(** [new OAuth2Client(config)]: the field initialisers, then the body of
    the constructor.  The configuration is stored and never written again;
    the methods that read it take it as an argument. *)
Definition constructor (now : Z) : M unit :=
  modify (with_accessToken None) >>
  modify (with_refreshToken None) >>
  loadTokensFromStorage now.

(** ** The session manager: handshake and exchange *)

(** The form parameters and the options that [exchangeCodeForToken]
    gives to [fetch]. *)
Definition token_request (config : AuthConfig) (code codeVerifier : string) : Request :=
  let body := [ ("grant_type", "authorization_code");
                ("code", code);
                ("redirect_uri", redirectUri config);
                ("client_id", clientId config);
                ("code_verifier", codeVerifier) ] in
  {| url := tokenEndpoint config;
     method := "POST";
     content_type := "application/x-www-form-urlencoded";
     body := body |}.

(** [exchangeCodeForToken(code, codeVerifier)]. *)
Definition exchangeCodeForToken (config : AuthConfig)
    (fetch : Request -> FetchResult) (now : Z)
    (code codeVerifier : string) : M bool :=
  try_catch
    (do response <- do_fetch fetch (token_request config code codeVerifier);
     if negb (ok response) then
       let errorText := text response in
       throw (Error ("Token exchange failed: "
                     +:+ JS.Number_toString (Z.of_N (status response))
                     +:+ " - " +:+ errorText))
     else
       do tokenResponse <- lift (json response);
       modify (with_accessToken (Some (access_token tokenResponse))) >>
       modify (with_refreshToken (JS.or_null (refresh_token tokenResponse))) >>
       saveTokensToStorage now tokenResponse >>
       ret true)
    (fun error =>
       console_error (LogExn "Token exchange error:" error) >>
       throw error).

(** [handleCallback()].  Past the checks [code] and [codeVerifier] are
    strings, which is what [default] unwraps. *)
Definition handleCallback (config : AuthConfig)
    (fetch : Request -> FetchResult) (now : Z) : M bool :=
  do urlParams <- gets search;
  let code := Host.params_get "code" urlParams in
  let state := Host.params_get "state" urlParams in
  let error := Host.params_get "error" urlParams in
  match error with
  | Some e =>
      when (JS.truthy e)
        (console_error (LogText "OAuth error:" e) >>
         throw (Error ("OAuth error: " +:+ e)))
  | None => ret tt
  end >>
  if negb (JS.truthy_opt code) || negb (JS.truthy_opt state) then
    throw (Error "Missing authorization code or state parameter")
  else
    do storedState <- sessionStorage_getItem "oauth_state";
    if negb (bool_decide (state = storedState)) then
      throw (Error "Invalid state parameter")
    else
      do codeVerifier <- sessionStorage_getItem "oauth_code_verifier";
      if negb (JS.truthy_opt codeVerifier) then
        throw (Error "Missing code verifier")
      else
        sessionStorage_removeItem "oauth_state" >>
        sessionStorage_removeItem "oauth_code_verifier" >>
        exchangeCodeForToken config fetch now
          (default "" code) (default "" codeVerifier).

(** ** The session manager: PKCE challenge and start of the handshake *)

Section Challenge.

(** [new TextEncoder().encode(s)]: the UTF-8 bytes of a string. *)
Variable TextEncoder_encode : string -> list byte.

(** [crypto.subtle.digest('SHA-256', data)] on a host that provides it. *)
Variable subtle_digest_SHA256 : list byte -> list byte.

(** [generateCodeChallenge(codeVerifier)]. *)
Definition generateCodeChallenge (codeVerifier : string) : M string :=
  let data := TextEncoder_encode codeVerifier in
  let digest := subtle_digest_SHA256 data in
  ret (JS.replace_all "=" ""
         (JS.replace_all "/" "_"
            (JS.replace_all "+" "-"
               (Host.btoa (Host.fromCharCode digest))))).

(** [authorize()]; the two byte sources are the host's answers to the two
    calls of [crypto.getRandomValues].  The navigation is recorded as the
    endpoint and the query parameters of the address. *)
Definition authorize (config : AuthConfig) (rng_state rng_verifier : nat -> byte) : M unit :=
  let state := generateRandomString 32 rng_state in
  let codeVerifier := generateRandomString 128 rng_verifier in
  do codeChallenge <- generateCodeChallenge codeVerifier;
  sessionStorage_setItem "oauth_state" state >>
  sessionStorage_setItem "oauth_code_verifier" codeVerifier >>
  let params := [ ("response_type", "code");
                  ("client_id", clientId config);
                  ("redirect_uri", redirectUri config);
                  ("state", state);
                  ("code_challenge", codeChallenge);
                  ("code_challenge_method", "S256");
                  ("scope", if JS.truthy_opt (scope config)
                            then default "" (scope config) else "read") ] in
  modify (with_href (Some (authorizationEndpoint config, params))).

End Challenge.

(** ** The session manager: token description *)

(** What [getTokenInfo()] returns when it does not return [null]: the
    descriptor built from the decoded claims, or the basic one. *)
Inductive TokenInfo (any : Type) :=
| ClaimsInfo (token : string) (expires : string) (scope : any) (user : any)
| BasicInfo (token : string) (type : string).
Arguments ClaimsInfo {any} token expires scope user.
Arguments BasicInfo {any} token type.

Section Describe.

(** Values of type [any], as [JSON.parse] produces them. *)
Variable any : Type.

(** [atob(s)]; throws on input that is not base64. *)
Variable atob : string -> outcome string.

(** [JSON.parse(s)]; throws a [SyntaxError] on input that is not JSON. *)
Variable JSON_parse : string -> outcome any.

(** [value.name]; throws a [TypeError] when [value] is [null]. *)
Variable get_property : any -> string -> outcome any.

(** Truthiness of a value. *)
Variable is_truthy : any -> bool.

(** A string literal as a value. *)
Variable literal : string -> any.

(** [new Date(value * 1000).toISOString()]; throws a [RangeError] when
    the date is invalid. *)
Variable seconds_toISOString : any -> outcome string.

(** The object literal returned from inside the [try] block. *)
Definition describe_claims (token : string) (decoded : any) : M (TokenInfo any) :=
  do exp <- lift (get_property decoded "exp");
  do expires <- (if is_truthy exp
                 then do exp' <- lift (get_property decoded "exp");
                      lift (seconds_toISOString exp')
                 else ret "Unknown");
  do scope <- lift (get_property decoded "scope");
  let scope := if is_truthy scope then scope else literal "Unknown" in
  do sub <- lift (get_property decoded "sub");
  do user <- (if is_truthy sub then ret sub
              else do username <- lift (get_property decoded "username");
                   ret (if is_truthy username then username else literal "Unknown"));
  ret (ClaimsInfo (JS.prefix 20 token +:+ "...") expires scope user).

(** [getTokenInfo()]; [None] is [null].  The body of the [try] block
    gives [Some info] when it returns and [None] when control falls out
    of it to the final [return null]. *)
Definition getTokenInfo : M (option (TokenInfo any)) :=
  do held <- gets accessToken;
  if negb (JS.truthy_opt held) then ret None
  else
    let token := default "" held in
    do returned <-
      try_catch
        (let payload := JS.split "." token !! 1%nat in
         if JS.truthy_opt payload then
           do raw <- lift (atob (JS.replace_all "_" "/"
                                   (JS.replace_all "-" "+" (default "" payload))));
           do decoded <- lift (JSON_parse raw);
           do info <- describe_claims token decoded;
           ret (Some info)
         else ret None)
        (fun error =>
           ret (Some (BasicInfo (JS.prefix 20 token +:+ "...") "Bearer")));
    match returned with
    | Some info => ret (Some info)
    | None => ret None
    end.

End Describe.

(** ** The vocabulary of the specification *)

(** The failures of the callback and of the exchange, as the class
    throws them. *)
Definition AuthorizationDenied (error : string) : exn :=
  Error ("OAuth error: " +:+ error).

Definition MalformedCallback : exn :=
  Error "Missing authorization code or state parameter".

Definition StateMismatch : exn :=
  Error "Invalid state parameter".

Definition MissingVerifier : exn :=
  Error "Missing code verifier".

Definition TokenExchangeFailed (status : N) (body : string) : exn :=
  Error ("Token exchange failed: " +:+ JS.Number_toString (Z.of_N status)
         +:+ " - " +:+ body).

(** The three durable token entries. *)
Definition durable_tokens (st : State) : option string * option string * option string :=
  (localStorage st !! "access_token",
   localStorage st !! "refresh_token",
   localStorage st !! "token_expires_at").

(** Base64url as the specification words it: standard base64 in which
    every [+] becomes [-], every [/] becomes [_] and the [=] padding is
    dropped. *)
Fixpoint base64url_of_base64 (s : string) : string :=
  match s with
  | EmptyString => EmptyString
  | String c rest =>
      if Ascii.eqb c "=" then base64url_of_base64 rest
      else if Ascii.eqb c "+" then String "-" (base64url_of_base64 rest)
      else if Ascii.eqb c "/" then String "_" (base64url_of_base64 rest)
      else String c (base64url_of_base64 rest)
  end.

Definition base64url (bytes : list byte) : string :=
  base64url_of_base64 (Host.btoa (Host.fromCharCode bytes)).

(** A character that base64url never contains. *)
Definition is_base64_only_char (c : ascii) : bool :=
  Ascii.eqb c "+" || Ascii.eqb c "/" || Ascii.eqb c "=".

(** A character of the standard base64 alphabet, padding apart. *)
Definition is_base64_char (c : ascii) : bool :=
  let n := N_of_ascii c in
  ((65 <=? n) && (n <=? 90) || (97 <=? n) && (n <=? 122)
   || (48 <=? n) && (n <=? 57) || (n =? 43) || (n =? 47))%N.

(** A character of the base64url alphabet: a letter, a digit, [-] or
    [_], all of them unreserved in a URL. *)
Definition is_base64url_char (c : ascii) : bool :=
  let n := N_of_ascii c in
  ((65 <=? n) && (n <=? 90) || (97 <=? n) && (n <=? 122)
   || (48 <=? n) && (n <=? 57) || (n =? 45) || (n =? 95))%N.

(** The length and the alphabet of base64url after [btoa]. *)
Definition challenge_shape (s : string) : Prop :=
  String.length (base64url_of_base64 (Host.btoa s))
  = ((4 * String.length s + 2) / 3)%nat /\
  JS.all_chars is_base64url_char (base64url_of_base64 (Host.btoa s)) = true.

(** The access token held in memory is the one [localStorage] has. *)
Definition access_token_in_sync (st : State) : Prop :=
  accessToken st = localStorage st !! "access_token".

(** [Number.isSafeInteger(z)]: an integer of magnitude at most
    2^53 - 1, which a number holds exactly. *)
Definition Number_isSafeInteger (z : Z) : bool :=
  ((-9007199254740991 <=? z) && (z <=? 9007199254740991))%Z.

(** The instant [now + seconds * 1000] is computed exactly: the time, the
    product and the sum are safe integers. *)
Definition exact_expiry (now seconds : Z) : Prop :=
  Number_isSafeInteger now = true /\
  Number_isSafeInteger (seconds * 1000) = true /\
  Number_isSafeInteger (now + seconds * 1000) = true.

(** The exchange fails with the error [e] before any token is assigned:
    the request is rejected with [e]; or the status is outside 200-299
    and [e] is the error that carries the status and the body; or the
    status is in 200-299 and reading the body as JSON throws [e]. *)
Definition exchange_fails (config : AuthConfig) (fetch : Request -> FetchResult)
    (code codeVerifier : string) (e : exn) : Prop :=
  match fetch (token_request config code codeVerifier) with
  | Rejected e' => e' = e
  | Fulfilled response =>
      if ok response then json response = Throw e
      else e = TokenExchangeFailed (status response) (text response)
  end.

(** The callback stops at one of its four checks: the query has a
    non-empty [error]; or [code] or [state] is absent or empty; or the
    stored [oauth_state] is not the [state] of the query; or the stored
    verifier is absent or empty. *)
Definition callback_stops (st : State) : Prop :=
  JS.truthy_opt (Host.params_get "error" (search st)) = true \/
  JS.truthy_opt (Host.params_get "code" (search st)) = false \/
  JS.truthy_opt (Host.params_get "state" (search st)) = false \/
  Host.params_get "state" (search st) <> sessionStorage st !! "oauth_state" \/
  JS.truthy_opt (sessionStorage st !! "oauth_code_verifier") = false.

(** The page was reached by the redirect of a handshake in progress: the
    query has no non-empty [error], it has the non-empty [code] and
    [state], and [sessionStorage] holds that state and the non-empty
    verifier. *)
Definition handshake_pending (st : State) (code state verifier : string) : Prop :=
  JS.truthy_opt (Host.params_get "error" (search st)) = false /\
  Host.params_get "code" (search st) = Some code /\
  JS.truthy code = true /\
  Host.params_get "state" (search st) = Some state /\
  JS.truthy state = true /\
  sessionStorage st !! "oauth_state" = Some state /\
  sessionStorage st !! "oauth_code_verifier" = Some verifier /\
  JS.truthy verifier = true.

(** ** Scenarios used to exercise the model *)

Definition demo_config : AuthConfig :=
  {| clientId := "demo-client";
     redirectUri := "http://localhost:3000/callback";
     authorizationEndpoint := "/api/v1/oauth2/authorize";
     tokenEndpoint := "/api/v1/oauth2/token";
     scope := None |}.

(** A page whose client object holds no token yet. *)
Definition page (durable scratch : list (string * string))
    (path : string) (query : Host.URLSearchParams) : State :=
  mkState None None (list_to_map durable) (list_to_map scratch)
    path query None [] [].

(** A client that holds the tokens of a session. *)
Definition signed_in (token refresh expires_at : string) : State :=
  mkState (Some token) (Some refresh)
    (list_to_map [("access_token", token); ("refresh_token", refresh);
                  ("token_expires_at", expires_at)])
    ∅ "/" [] None [] [].

(** A token endpoint that answers every request alike. *)
Definition endpoint (code : N) (body : string) (parsed : outcome TokenResponse)
    (request : Request) : FetchResult :=
  Fulfilled {| status := code; text := body; json := parsed |}.

Definition bearer (token : string) (seconds : option Z) (refresh : option string)
    : TokenResponse :=
  {| access_token := token; token_type := "Bearer"; expires_in := seconds;
     refresh_token := refresh; response_scope := None |}.

(** ** The API client (api-client.ts) *)

Module Api.

(** [hay.includes(needle)]. *)
Fixpoint includes (needle hay : string) : bool :=
  String.prefix needle hay
  || match hay with
     | EmptyString => false
     | String _ rest => includes needle rest
     end.

(** [error instanceof Error]: every exception of the model is one. *)
Definition instanceof_Error (e : exn) : bool :=
  match e with
  | Error _ => true
  | HostError _ _ => true
  end.

(** [error.message]. *)
Definition message_of (e : exn) : string :=
  match e with
  | Error m => m
  | HostError _ m => m
  end.

(** The part of [RequestInit] that the client uses; absent [headers] are
    the empty record. *)
Record RequestInit := {
  init_method : option string;
  init_headers : gmap string string;
  init_body : option string
}.

(** What [fetch] is called with. *)
Record Sent := {
  sent_url : string;
  sent_method : option string;
  sent_headers : gmap string string;
  sent_body : option string
}.

Section Data.

(** Values of type [any]: parsed JSON bodies and request bodies. *)
Variable any : Type.

(** A response: status line, [headers.get('content-type')], and how
    [json()] and [text()] complete. *)
Record HttpResponse := {
  http_status : N;
  http_statusText : string;
  http_content_type : option string;
  http_json : outcome any;
  http_text : outcome string
}.

(** The [data] of a response: the parsed JSON or the text. *)
Inductive Data :=
| Json (value : any)
| Text (value : string).

Record ApiResponse := {
  data : option Data;
  error : option string;
  status : N;
  message : option string
}.

(** The fields of the client and the requests it has given to [fetch]. *)
Record Client := mkClient {
  baseUrl : string;
  accessToken : option string;
  requests : list Sent
}.

(** [new ApiClient(baseUrl)]. *)
Definition constructor (baseUrl : string) : Client :=
  mkClient baseUrl None [].

(** [setAccessToken(token)]. *)
Definition setAccessToken (token : option string) (c : Client) : Client :=
  mkClient (baseUrl c) token (requests c).

(** The headers [makeRequest] sends. *)
Definition request_headers (c : Client) (options : RequestInit)
    (requiresAuth : bool) : gmap string string :=
  let headers := init_headers options ∪ {[ "Content-Type" := "application/json" ]} in
  if requiresAuth && JS.truthy_opt (accessToken c)
  then <["Authorization" := "Bearer " +:+ default "" (accessToken c)]> headers
  else headers.

(** The body of the [try] block of [makeRequest], after [fetch] has
    settled. *)
Definition read_response (response : HttpResponse) : outcome ApiResponse :=
  let contentType := http_content_type response in
  let read :=
    if JS.truthy_opt contentType
       && includes "application/json" (default "" contentType)
    then match http_json response with
         | Return v => Return (Json v)
         | Throw e => Throw e
         end
    else match http_text response with
         | Return t => Return (Text t)
         | Throw e => Throw e
         end in
  match read with
  | Return d =>
      Return {| data := Some d; error := None;
                status := http_status response;
                message := Some (http_statusText response) |}
  | Throw e => Throw e
  end.

(** [makeRequest(url, options, requiresAuth)]. *)
Definition makeRequest (fetch : Sent -> outcome HttpResponse)
    (url : string) (options : RequestInit) (requiresAuth : bool)
    (c : Client) : ApiResponse * Client :=
  let headers := request_headers c options requiresAuth in
  let sent := {| sent_url := baseUrl c +:+ url;
                 sent_method := init_method options;
                 sent_headers := headers;
                 sent_body := init_body options |} in
  let c' := mkClient (baseUrl c) (accessToken c) (requests c ++ [sent]) in
  let attempt :=
    match fetch sent with
    | Return response => read_response response
    | Throw e => Throw e
    end in
  match attempt with
  | Return r => (r, c')
  | Throw e =>
      ({| data := None;
          error := Some (if instanceof_Error e then message_of e
                         else "Network error");
          status := 503;
          message := Some "Service unavailable (network error)" |}, c')
  end.

Definition GET : RequestInit :=
  {| init_method := Some "GET"; init_headers := ∅; init_body := None |}.

(** The answer of the guarded calls when no token is held. *)
Definition unauthenticated : ApiResponse :=
  {| data := None;
     error := Some "No access token available";
     status := 401;
     message := Some "Authentication required" |}.

(** [callPublicApi()]. *)
Definition callPublicApi (fetch : Sent -> outcome HttpResponse)
    (c : Client) : ApiResponse * Client :=
  makeRequest fetch "/api/v1/public" GET false c.

(** [callProtectedApi()]. *)
Definition callProtectedApi (fetch : Sent -> outcome HttpResponse)
    (c : Client) : ApiResponse * Client :=
  if negb (JS.truthy_opt (accessToken c)) then (unauthenticated, c)
  else makeRequest fetch "/api/v1/protected" GET true c.

(** [callAdminApi()]. *)
Definition callAdminApi (fetch : Sent -> outcome HttpResponse)
    (c : Client) : ApiResponse * Client :=
  if negb (JS.truthy_opt (accessToken c)) then (unauthenticated, c)
  else makeRequest fetch "/api/v1/admin" GET true c.

End Data.

Arguments http_status {any} _.
Arguments http_statusText {any} _.
Arguments http_content_type {any} _.
Arguments http_json {any} _.
Arguments http_text {any} _.
Arguments Json {any} value.
Arguments Text {any} value.
Arguments data {any} _.
Arguments error {any} _.
Arguments status {any} _.
Arguments message {any} _.
Arguments unauthenticated {any}.
Arguments read_response {any} response.
Arguments makeRequest {any} fetch url options requiresAuth c.
Arguments callPublicApi {any} fetch c.
Arguments callProtectedApi {any} fetch c.
Arguments callAdminApi {any} fetch c.

End Api.

(** * Properties *)

(** ** Running computations *)

Ltac run :=
  unfold when, localStorage_getItem, localStorage_setItem,
    localStorage_removeItem, sessionStorage_getItem, sessionStorage_setItem,
    sessionStorage_removeItem, console_error, do_fetch, gets, modify, lift,
    try_catch, bind, ret, throw in *;
  cbn [fst snd accessToken refreshToken localStorage sessionStorage pathname
       search href requests console with_accessToken with_refreshToken
       with_localStorage with_sessionStorage with_location with_href
       with_requests with_console] in *.

Lemma truthy_opt_Some (o : option string) :
  JS.truthy_opt o = true -> exists s, o = Some s /\ JS.truthy s = true.
Proof.
  destruct o as [s|]; cbn; [eauto | discriminate].
Qed.

(** ** Logout *)

Lemma logout_storage (st : State) :
  localStorage (snd (logout st)) =
  delete "token_expires_at" (delete "refresh_token" (delete "access_token" (localStorage st))).
Proof.
  unfold logout. run. destruct (String.eqb _ _); reflexivity.
Qed.

Lemma logout_fields (st : State) :
  fst (logout st) = Return tt /\
  accessToken (snd (logout st)) = None /\
  refreshToken (snd (logout st)) = None.
Proof.
  unfold logout. run. destruct (String.eqb _ _); auto.
Qed.

Lemma logout_durable (st : State) :
  durable_tokens (snd (logout st)) = (None, None, None).
Proof.
  unfold durable_tokens. rewrite logout_storage.
  repeat f_equal; simplify_map_eq; reflexivity.
Qed.

Lemma logout_clears_session_aux (st : State) :
  fst (logout st) = Return tt /\
  isAuthenticated (snd (logout st)) = false /\
  localStorage (snd (logout st)) !! "access_token" = None /\
  localStorage (snd (logout st)) !! "refresh_token" = None /\
  localStorage (snd (logout st)) !! "token_expires_at" = None.
Proof.
  destruct (logout_fields st) as (Hr & Ha & Hf).
  pose proof (logout_durable st) as Hd. unfold durable_tokens in Hd.
  unfold isAuthenticated. rewrite Ha.
  injection Hd as H1 H2 H3. auto 10.
Qed.

(** C5.  Whatever the state before, [logout()] returns, after which
    [isAuthenticated()] is false, [getAccessToken()] is [null], the
    refresh token held in memory is [null], and [localStorage] has no
    [access_token], [refresh_token] or [token_expires_at] entry. *)
Theorem logout_clears_session (st : State) :
  fst (logout st) = Return tt /\
  isAuthenticated (snd (logout st)) = false /\
  getAccessToken (snd (logout st)) = None /\
  refreshToken (snd (logout st)) = None /\
  localStorage (snd (logout st)) !! "access_token" = None /\
  localStorage (snd (logout st)) !! "refresh_token" = None /\
  localStorage (snd (logout st)) !! "token_expires_at" = None.
Proof.
  destruct (logout_fields st) as (Hr & Ha & Hf).
  pose proof (logout_durable st) as Hd. unfold durable_tokens in Hd.
  unfold isAuthenticated, getAccessToken. rewrite Ha.
  injection Hd as H1 H2 H3. auto 10.
Qed.

(** ** Construction *)

Lemma constructor_unfold (now : Z) (st : State) :
  constructor now st =
  let loaded :=
    with_refreshToken (localStorage st !! "refresh_token")
      (with_accessToken (localStorage st !! "access_token") st) in
  match localStorage st !! "token_expires_at" with
  | Some e =>
      if JS.truthy e && JS.number_gt now (JS.parseInt e)
      then logout loaded else (Return tt, loaded)
  | None => (Return tt, loaded)
  end.
Proof.
  unfold constructor, loadTokensFromStorage. run.
  destruct (localStorage st !! "token_expires_at") as [e|]; [|reflexivity].
  destruct (JS.truthy e && JS.number_gt now (JS.parseInt e)); reflexivity.
Qed.

Lemma parseInt_truthy (e : string) (v : Z) :
  JS.parseInt e = Some v -> JS.truthy e = true.
Proof.
  destruct e; [discriminate | reflexivity].
Qed.

(** C4.  Whatever [localStorage] holds when the client is constructed:
    if it has an [access_token] entry and either no [token_expires_at]
    entry or one that reads as an instant later than the current time,
    the client is authenticated, holds that access token and the stored
    refresh token (if any), and [localStorage] is as before; if the
    [token_expires_at] entry reads as an instant earlier than the current
    time, [isAuthenticated()] is false and the three entries are gone. *)
Theorem constructor_initial_state (now : Z) (st : State) :
  (forall t,
      localStorage st !! "access_token" = Some t ->
      (localStorage st !! "token_expires_at" = None \/
       exists e v, localStorage st !! "token_expires_at" = Some e /\
                   JS.parseInt e = Some v /\ (now < v)%Z) ->
      fst (constructor now st) = Return tt /\
      isAuthenticated (snd (constructor now st)) = true /\
      getAccessToken (snd (constructor now st)) = Some t /\
      refreshToken (snd (constructor now st)) = localStorage st !! "refresh_token" /\
      localStorage (snd (constructor now st)) = localStorage st) /\
  (forall e v,
      localStorage st !! "token_expires_at" = Some e ->
      JS.parseInt e = Some v -> (v < now)%Z ->
      fst (constructor now st) = Return tt /\
      isAuthenticated (snd (constructor now st)) = false /\
      localStorage (snd (constructor now st)) !! "access_token" = None /\
      localStorage (snd (constructor now st)) !! "refresh_token" = None /\
      localStorage (snd (constructor now st)) !! "token_expires_at" = None).
Proof.
  rewrite constructor_unfold. cbv zeta. split.
  - intros t Ht Hexp.
    assert (Hfresh : match localStorage st !! "token_expires_at" with
                     | Some e => JS.truthy e && JS.number_gt now (JS.parseInt e)
                     | None => false
                     end = false).
    { destruct Hexp as [-> | (e & v & -> & -> & Hlt)]; [reflexivity|].
      apply andb_false_iff. right. cbn. apply Z.ltb_ge. lia. }
    destruct (localStorage st !! "token_expires_at") as [e|].
    + rewrite Hfresh. unfold isAuthenticated, getAccessToken. cbn.
      rewrite Ht. auto.
    + unfold isAuthenticated, getAccessToken. cbn. rewrite Ht. auto.
  - intros e v -> Hv Hlt.
    rewrite (parseInt_truthy e v Hv), Hv. cbn [andb JS.number_gt].
    apply Z.ltb_lt in Hlt. rewrite Hlt.
    match goal with |- context [logout ?s] =>
      destruct (logout_clears_session_aux s) as (H1 & H2 & H3 & H4 & H5)
    end.
    auto.
Qed.

Lemma constructor_initial_state_witness :
  isAuthenticated
    (snd (constructor 2000
            (page [("access_token", "tok"); ("refresh_token", "ref");
                   ("token_expires_at", "3000")] [] "/" []))) = true /\
  isAuthenticated
    (snd (constructor 2000
            (page [("access_token", "tok"); ("refresh_token", "ref");
                   ("token_expires_at", "1000")] [] "/" []))) = false.
Proof.
  split.
  - refine (proj1 (proj2 (proj1 (constructor_initial_state 2000 _) "tok" _ _))).
    + reflexivity.
    + right. exists "3000", 3000%Z.
      split; [reflexivity | split; [reflexivity | lia]].
  - refine (proj1 (proj2 (proj2 (constructor_initial_state 2000 _) "1000" 1000%Z _ _ _))).
    + reflexivity.
    + reflexivity.
    + lia.
Defined.

(** ** Token exchange *)

Lemma saveTokensToStorage_spec (now : Z) (tr : TokenResponse) (st : State) :
  saveTokensToStorage now tr st =
  let m1 := <["access_token" := access_token tr]> (localStorage st) in
  let m2 := match refresh_token tr with
            | Some r => if JS.truthy r then <["refresh_token" := r]> m1 else m1
            | None => m1
            end in
  let m3 := match expires_in tr with
            | Some s => if (s =? 0)%Z then m2
                        else <["token_expires_at" :=
                                 JS.Number_toString (now + s * 1000)]> m2
            | None => m2
            end in
  (Return tt, with_localStorage m3 st).
Proof.
  unfold saveTokensToStorage. run.
  destruct (refresh_token tr) as [r|], (expires_in tr) as [s|]; cbn;
    try destruct (JS.truthy r); try destruct (s =? 0)%Z; reflexivity.
Qed.

Lemma ok_iff (response : Response) :
  ok response = true <-> (200 <= status response <= 299)%N.
Proof.
  unfold ok. rewrite andb_true_iff, !N.leb_le. reflexivity.
Qed.

Lemma exchange_not_ok (config : AuthConfig) (fetch : Request -> FetchResult)
    (now : Z) (code codeVerifier : string) (st : State) (response : Response) :
  fetch (token_request config code codeVerifier) = Fulfilled response ->
  ok response = false ->
  exchangeCodeForToken config fetch now code codeVerifier st =
  (Throw (TokenExchangeFailed (status response) (text response)),
   with_console
     (console st ++
        [LogExn "Token exchange error:"
           (TokenExchangeFailed (status response) (text response))])
     (with_requests (requests st ++ [token_request config code codeVerifier]) st)).
Proof.
  intros Hf Hok. unfold exchangeCodeForToken. run. rewrite Hf, Hok. reflexivity.
Qed.

Lemma exchange_ok (config : AuthConfig) (fetch : Request -> FetchResult)
    (now : Z) (code codeVerifier : string) (st : State)
    (response : Response) (tr : TokenResponse) :
  fetch (token_request config code codeVerifier) = Fulfilled response ->
  ok response = true ->
  json response = Return tr ->
  exchangeCodeForToken config fetch now code codeVerifier st =
  (Return true,
   snd (saveTokensToStorage now tr
          (with_refreshToken (JS.or_null (refresh_token tr))
             (with_accessToken (Some (access_token tr))
                (with_requests
                   (requests st ++ [token_request config code codeVerifier]) st))))).
Proof.
  intros Hf Hok Hj. unfold exchangeCodeForToken. run. rewrite Hf, Hok, Hj.
  cbn [negb]. rewrite !saveTokensToStorage_spec. reflexivity.
Qed.

(** C3.  When the token endpoint answers with a status outside 200-299,
    [exchangeCodeForToken] throws the error that carries the status and
    the body, and the access and refresh tokens held in memory and all of
    [localStorage], so its three token entries, are as before;
    [getAccessToken()] still returns what it returned. *)
Theorem exchange_failure_keeps_session (config : AuthConfig)
    (fetch : Request -> FetchResult) (now : Z) (code codeVerifier : string)
    (st : State) (response : Response) :
  fetch (token_request config code codeVerifier) = Fulfilled response ->
  (status response < 200 \/ 299 < status response)%N ->
  let result := exchangeCodeForToken config fetch now code codeVerifier st in
  fst result = Throw (TokenExchangeFailed (status response) (text response)) /\
  accessToken (snd result) = accessToken st /\
  refreshToken (snd result) = refreshToken st /\
  localStorage (snd result) = localStorage st /\
  durable_tokens (snd result) = durable_tokens st /\
  getAccessToken (snd result) = getAccessToken st.
Proof.
  intros Hf Hstatus result. subst result.
  assert (Hok : ok response = false).
  { destruct (ok response) eqn:E; [|reflexivity].
    apply ok_iff in E. lia. }
  rewrite (exchange_not_ok _ _ _ _ _ _ _ Hf Hok). cbn. auto 10.
Qed.

Lemma exchange_failure_keeps_session_witness :
  let result :=
    exchangeCodeForToken demo_config (endpoint 400 "invalid_grant" (Throw (HostError "SyntaxError" "")))
      5000 "code-2" "verifier-2" (signed_in "tok" "ref" "9000") in
  fst result = Throw (TokenExchangeFailed 400 "invalid_grant") /\
  accessToken (snd result) = Some "tok" /\
  refreshToken (snd result) = Some "ref" /\
  localStorage (snd result) = localStorage (signed_in "tok" "ref" "9000") /\
  durable_tokens (snd result) = durable_tokens (signed_in "tok" "ref" "9000") /\
  getAccessToken (snd result) = Some "tok".
Proof.
  apply (exchange_failure_keeps_session demo_config
           (endpoint 400 "invalid_grant" (Throw (HostError "SyntaxError" "")))
           5000 "code-2" "verifier-2" (signed_in "tok" "ref" "9000")
           {| status := 400; text := "invalid_grant";
              json := Throw (HostError "SyntaxError" "") |}).
  - reflexivity.
  - right. cbn. lia.
Defined.

Lemma exchange_ok_state (config : AuthConfig) (fetch : Request -> FetchResult)
    (now : Z) (code codeVerifier : string) (st : State)
    (response : Response) (tr : TokenResponse) :
  fetch (token_request config code codeVerifier) = Fulfilled response ->
  ok response = true ->
  json response = Return tr ->
  let result := exchangeCodeForToken config fetch now code codeVerifier st in
  fst result = Return true /\
  accessToken (snd result) = Some (access_token tr) /\
  refreshToken (snd result) = JS.or_null (refresh_token tr) /\
  localStorage (snd result) = localStorage (snd (saveTokensToStorage now tr st)).
Proof.
  intros Hf Hok Hj result. subst result.
  rewrite (exchange_ok _ _ _ _ _ _ _ _ Hf Hok Hj).
  rewrite !saveTokensToStorage_spec. cbn. auto.
Qed.

(** C6, as the code has it.  After a response with a status in 200-299
    whose body holds [access_token] t and an [expires_in] s other than
    zero, where the time of receipt, s * 1000 and their sum are safe
    integers, [exchangeCodeForToken] returns true, [isAuthenticated()]
    is true, [getAccessToken()] returns t, the [access_token] entry of
    [localStorage] is t and its [token_expires_at] entry is the string
    form of the time of receipt plus s * 1000. *)
Theorem exchange_success_installs_token (config : AuthConfig)
    (fetch : Request -> FetchResult) (now : Z) (code codeVerifier : string)
    (st : State) (response : Response) (tr : TokenResponse) (s : Z) :
  fetch (token_request config code codeVerifier) = Fulfilled response ->
  (200 <= status response <= 299)%N ->
  json response = Return tr ->
  expires_in tr = Some s ->
  s <> 0%Z ->
  exact_expiry now s ->
  let result := exchangeCodeForToken config fetch now code codeVerifier st in
  fst result = Return true /\
  isAuthenticated (snd result) = true /\
  getAccessToken (snd result) = Some (access_token tr) /\
  localStorage (snd result) !! "access_token" = Some (access_token tr) /\
  localStorage (snd result) !! "token_expires_at" =
    Some (JS.Number_toString (now + s * 1000)).
Proof.
  intros Hf Hstatus Hj Hs Hnz _.
  apply ok_iff in Hstatus.
  destruct (exchange_ok_state config fetch now code codeVerifier st
              response tr Hf Hstatus Hj) as (Hr & Ha & _ & Hl).
  cbv zeta. unfold isAuthenticated, getAccessToken.
  rewrite Hr, Ha, Hl, saveTokensToStorage_spec. cbn. rewrite Hs.
  apply Z.eqb_neq in Hnz. rewrite Hnz.
  repeat split.
  - destruct (refresh_token tr) as [r|]; [destruct (JS.truthy r)|];
      simplify_map_eq; reflexivity.
  - simplify_map_eq. reflexivity.
Qed.

Lemma exchange_success_installs_token_witness :
  let result :=
    exchangeCodeForToken demo_config
      (endpoint 200 "" (Return (bearer "abc" (Some 3600%Z) None)))
      1700000000000 "code-1" "verifier-1" (page [] [] "/callback" []) in
  fst result = Return true /\
  isAuthenticated (snd result) = true /\
  getAccessToken (snd result) = Some "abc" /\
  localStorage (snd result) !! "access_token" = Some "abc" /\
  localStorage (snd result) !! "token_expires_at" = Some "1700003600000".
Proof.
  apply (exchange_success_installs_token demo_config
           (endpoint 200 "" (Return (bearer "abc" (Some 3600%Z) None)))
           1700000000000 "code-1" "verifier-1" (page [] [] "/callback" [])
           {| status := 200; text := "";
              json := Return (bearer "abc" (Some 3600%Z) None) |}
           (bearer "abc" (Some 3600%Z) None) 3600%Z).
  - reflexivity.
  - cbn. lia.
  - reflexivity.
  - reflexivity.
  - lia.
  - split; [reflexivity|]. split; reflexivity.
Defined.

(** C6 does not hold for [expires_in] zero: the exchange succeeds and the
    [token_expires_at] entry is not written, so the instant left by the
    earlier session stays where the current time is claimed. *)
Lemma exchange_zero_expires_in_not_recorded :
  let response := {| status := 200; text := "";
                     json := Return (bearer "abc" (Some 0%Z) None) |} in
  let result :=
    exchangeCodeForToken demo_config (fun _ => Fulfilled response)
      5000 "code-1" "verifier-1" (signed_in "old" "ref" "1000") in
  (200 <= status response <= 299)%N /\
  json response = Return (bearer "abc" (Some 0%Z) None) /\
  expires_in (bearer "abc" (Some 0%Z) None) = Some 0%Z /\
  exact_expiry 5000 0 /\
  fst result = Return true /\
  localStorage (snd result) !! "token_expires_at" = Some "1000" /\
  localStorage (snd result) !! "token_expires_at" <>
    Some (JS.Number_toString (5000 + 0 * 1000)).
Proof.
  cbv zeta. split; [cbn; lia|].
  unfold exact_expiry. repeat split; try reflexivity.
  vm_compute. discriminate.
Qed.

(** C10.  After a successful exchange whose response has no
    [refresh_token], the [refresh_token] entry of [localStorage] is what
    it was before, while the refresh token held in memory is [null];
    after one whose response has no [expires_in], the [token_expires_at]
    entry is what it was before. *)
Theorem exchange_keeps_stale_entries (config : AuthConfig)
    (fetch : Request -> FetchResult) (now : Z) (code codeVerifier : string)
    (st : State) (response : Response) (tr : TokenResponse) :
  fetch (token_request config code codeVerifier) = Fulfilled response ->
  (200 <= status response <= 299)%N ->
  json response = Return tr ->
  let result := exchangeCodeForToken config fetch now code codeVerifier st in
  fst result = Return true /\
  (refresh_token tr = None ->
   localStorage (snd result) !! "refresh_token" = localStorage st !! "refresh_token" /\
   refreshToken (snd result) = None) /\
  (expires_in tr = None ->
   localStorage (snd result) !! "token_expires_at" =
   localStorage st !! "token_expires_at").
Proof.
  intros Hf Hstatus Hj.
  apply ok_iff in Hstatus.
  destruct (exchange_ok_state config fetch now code codeVerifier st
              response tr Hf Hstatus Hj) as (Hr & _ & Hm & Hl).
  cbv zeta. rewrite Hr, Hm, Hl, saveTokensToStorage_spec. cbn.
  split; [reflexivity|]. split.
  - intros ->. split; [|reflexivity].
    destruct (expires_in tr) as [s|]; [destruct (s =? 0)%Z|];
      simplify_map_eq; reflexivity.
  - intros ->.
    destruct (refresh_token tr) as [r|]; [destruct (JS.truthy r)|];
      simplify_map_eq; reflexivity.
Qed.

Lemma exchange_keeps_stale_entries_witness :
  let result :=
    exchangeCodeForToken demo_config
      (endpoint 200 "" (Return (bearer "new" None None)))
      5000 "code-2" "verifier-2" (signed_in "old" "old-refresh" "1000") in
  fst result = Return true /\
  (localStorage (snd result) !! "refresh_token" = Some "old-refresh" /\
   refreshToken (snd result) = None) /\
  localStorage (snd result) !! "token_expires_at" = Some "1000".
Proof.
  pose proof (exchange_keeps_stale_entries demo_config
           (endpoint 200 "" (Return (bearer "new" None None)))
           5000 "code-2" "verifier-2" (signed_in "old" "old-refresh" "1000")
           {| status := 200; text := ""; json := Return (bearer "new" None None) |}
           (bearer "new" None None)) as H.
  cbv zeta in H.
  destruct H as (H1 & H2 & H3).
  - reflexivity.
  - cbn. lia.
  - reflexivity.
  - split; [exact H1|]. split; [exact (H2 eq_refl) | exact (H3 eq_refl)].
Defined.

(** ** Callback *)

Lemma handleCallback_error (config : AuthConfig) (fetch : Request -> FetchResult)
    (now : Z) (st : State) (e : string) :
  Host.params_get "error" (search st) = Some e ->
  JS.truthy e = true ->
  handleCallback config fetch now st =
  (Throw (AuthorizationDenied e),
   with_console (console st ++ [LogText "OAuth error:" e]) st).
Proof.
  intros He Ht. unfold handleCallback. run. rewrite He, Ht. reflexivity.
Qed.

Lemma handleCallback_no_error (config : AuthConfig) (fetch : Request -> FetchResult)
    (now : Z) (st : State) :
  JS.truthy_opt (Host.params_get "error" (search st)) = false ->
  handleCallback config fetch now st =
  let code := Host.params_get "code" (search st) in
  let state := Host.params_get "state" (search st) in
  if negb (JS.truthy_opt code) || negb (JS.truthy_opt state) then
    (Throw MalformedCallback, st)
  else if negb (bool_decide (state = sessionStorage st !! "oauth_state")) then
    (Throw StateMismatch, st)
  else if negb (JS.truthy_opt (sessionStorage st !! "oauth_code_verifier")) then
    (Throw MissingVerifier, st)
  else
    exchangeCodeForToken config fetch now (default "" code)
      (default "" (sessionStorage st !! "oauth_code_verifier"))
      (with_sessionStorage
         (delete "oauth_code_verifier" (delete "oauth_state" (sessionStorage st))) st).
Proof.
  intros He. unfold handleCallback. run. cbv zeta.
  destruct (Host.params_get "error" (search st)) as [e|];
    cbn in He; [rewrite He|].
  all: destruct (negb (JS.truthy_opt (Host.params_get "code" (search st)))
                 || negb (JS.truthy_opt (Host.params_get "state" (search st))));
    [reflexivity|].
  all: destruct (negb (bool_decide (Host.params_get "state" (search st)
                               = sessionStorage st !! "oauth_state")));
    [reflexivity|].
  all: destruct (negb (JS.truthy_opt (sessionStorage st !! "oauth_code_verifier")));
    reflexivity.
Qed.

(** C1, as the code has it.  When the stored [oauth_state] is absent or
    differs from the [state] value of the query, [handleCallback()]
    throws, the tokens held in memory and [localStorage] are as before
    and no request is sent to the token endpoint.  When moreover the
    query has no non-empty [error], a non-empty [code] and a non-empty
    [state], the error thrown is the one for a state mismatch and nothing
    at all has changed. *)
Theorem handleCallback_state_mismatch (config : AuthConfig)
    (fetch : Request -> FetchResult) (now : Z) (st : State) (s : string) :
  Host.params_get "state" (search st) = Some s ->
  sessionStorage st !! "oauth_state" <> Some s ->
  let result := handleCallback config fetch now st in
  (exists e, fst result = Throw e) /\
  accessToken (snd result) = accessToken st /\
  refreshToken (snd result) = refreshToken st /\
  localStorage (snd result) = localStorage st /\
  requests (snd result) = requests st /\
  (JS.truthy_opt (Host.params_get "error" (search st)) = false ->
   JS.truthy_opt (Host.params_get "code" (search st)) = true ->
   JS.truthy s = true ->
   result = (Throw StateMismatch, st)).
Proof.
  intros Hs Hne. cbv zeta.
  assert (Hdec : bool_decide (Some s = sessionStorage st !! "oauth_state") = false).
  { apply bool_decide_eq_false. congruence. }
  destruct (JS.truthy_opt (Host.params_get "error" (search st))) eqn:He.
  - apply truthy_opt_Some in He. destruct He as (e & He & Ht).
    rewrite (handleCallback_error _ _ _ _ _ He Ht). cbn.
    repeat split; eauto; discriminate.
  - rewrite (handleCallback_no_error _ _ _ _ He). cbv zeta.
    rewrite Hs, Hdec. cbn [negb].
    destruct (negb (JS.truthy_opt (Host.params_get "code" (search st)))
              || negb (JS.truthy_opt (Some s))) eqn:Hgate; cbn [fst snd].
    + repeat split; eauto.
      intros _ Hc Ht. cbn in Hgate. rewrite Hc, Ht in Hgate. discriminate.
    + repeat split; eauto.
Qed.

Lemma handleCallback_state_mismatch_witness :
  let st := page [("access_token", "tok")]
              [("oauth_state", "expected"); ("oauth_code_verifier", "ver")]
              "/callback" [("code", "abc"); ("state", "forged")] in
  handleCallback demo_config (endpoint 200 "" (Return (bearer "evil" None None)))
    5000 st = (Throw StateMismatch, st).
Proof.
  cbv zeta.
  refine (proj2 (proj2 (proj2 (proj2 (proj2
    (handleCallback_state_mismatch demo_config
       (endpoint 200 "" (Return (bearer "evil" None None))) 5000
       (page [("access_token", "tok")]
          [("oauth_state", "expected"); ("oauth_code_verifier", "ver")]
          "/callback" [("code", "abc"); ("state", "forged")])
       "forged" _ _))))) _ _ _).
  - reflexivity.
  - vm_compute. discriminate.
  - reflexivity.
  - reflexivity.
  - reflexivity.
Defined.

(** C1 does not hold for an empty [state] value: with [?code=abc&state=]
    and a stored [oauth_state], the stored value differs from the
    received one and the error thrown is the one for a missing parameter,
    not the one for a state mismatch. *)
Lemma handleCallback_empty_state_not_mismatch :
  let st := page []
              [("oauth_state", "expected"); ("oauth_code_verifier", "ver")]
              "/callback" [("code", "abc"); ("state", "")] in
  let result :=
    handleCallback demo_config (endpoint 200 "" (Return (bearer "abc" None None)))
      5000 st in
  Host.params_get "error" (search st) = None /\
  Host.params_get "code" (search st) = Some "abc" /\
  Host.params_get "state" (search st) = Some "" /\
  sessionStorage st !! "oauth_state" = Some "expected" /\
  sessionStorage st !! "oauth_state" <> Host.params_get "state" (search st) /\
  fst result = Throw MalformedCallback /\
  fst result <> Throw StateMismatch.
Proof.
  cbv zeta. repeat split; try reflexivity; vm_compute; discriminate.
Qed.

(** C8, as the code has it.  When the query has a non-empty [error]
    value, [handleCallback()] throws the error that carries it, whatever
    the rest of the query and of the storage; only the console has
    changed, so no request is sent to the token endpoint and the tokens
    held in memory, [localStorage] and [sessionStorage] are as before. *)
Theorem handleCallback_error_first (config : AuthConfig)
    (fetch : Request -> FetchResult) (now : Z) (st : State) (e : string) :
  Host.params_get "error" (search st) = Some e ->
  JS.truthy e = true ->
  let result := handleCallback config fetch now st in
  fst result = Throw (AuthorizationDenied e) /\
  snd result = with_console (console st ++ [LogText "OAuth error:" e]) st /\
  requests (snd result) = requests st /\
  accessToken (snd result) = accessToken st /\
  refreshToken (snd result) = refreshToken st /\
  localStorage (snd result) = localStorage st /\
  sessionStorage (snd result) = sessionStorage st.
Proof.
  intros He Ht. cbv zeta.
  rewrite (handleCallback_error _ _ _ _ _ He Ht). cbn. auto 10.
Qed.

Lemma handleCallback_error_first_witness :
  let st := page [("access_token", "tok")]
              [("oauth_state", "expected"); ("oauth_code_verifier", "ver")]
              "/callback"
              [("error", "access_denied"); ("code", "abc"); ("state", "expected")] in
  let result :=
    handleCallback demo_config (endpoint 200 "" (Return (bearer "new" None None)))
      5000 st in
  fst result = Throw (AuthorizationDenied "access_denied") /\
  snd result = with_console (console st ++ [LogText "OAuth error:" "access_denied"]) st /\
  requests (snd result) = requests st /\
  accessToken (snd result) = accessToken st /\
  refreshToken (snd result) = refreshToken st /\
  localStorage (snd result) = localStorage st /\
  sessionStorage (snd result) = sessionStorage st.
Proof.
  cbv zeta.
  apply (handleCallback_error_first demo_config
           (endpoint 200 "" (Return (bearer "new" None None))) 5000
           (page [("access_token", "tok")]
              [("oauth_state", "expected"); ("oauth_code_verifier", "ver")]
              "/callback"
              [("error", "access_denied"); ("code", "abc"); ("state", "expected")])
           "access_denied").
  - reflexivity.
  - reflexivity.
Defined.

(** C8 does not hold for an [error] parameter that is present and empty:
    with [?error=&code=abc&state=expected], the stored state and a stored
    verifier, the callback goes on to the exchange, sends the request and
    installs the token of the response. *)
Lemma handleCallback_empty_error_exchanges :
  let st := page []
              [("oauth_state", "expected"); ("oauth_code_verifier", "ver")]
              "/callback" [("error", ""); ("code", "abc"); ("state", "expected")] in
  let result :=
    handleCallback demo_config (endpoint 200 "" (Return (bearer "new" None None)))
      5000 st in
  Host.params_get "error" (search st) = Some "" /\
  fst result = Return true /\
  requests (snd result) = [token_request demo_config "abc" "ver"] /\
  accessToken st = None /\
  accessToken (snd result) = Some "new" /\
  localStorage (snd result) !! "access_token" = Some "new".
Proof.
  cbv zeta. repeat split; reflexivity.
Qed.

(** ** Strings *)

Lemma append_nil (s : string) : "" +:+ s = s.
Proof. reflexivity. Qed.

Lemma append_cons (c : ascii) (s1 s2 : string) :
  String c s1 +:+ s2 = String c (s1 +:+ s2).
Proof. reflexivity. Qed.

Lemma append_nil_r (s : string) : s +:+ "" = s.
Proof.
  induction s as [|c s IH]; [reflexivity|].
  rewrite append_cons, IH. reflexivity.
Qed.

Lemma length_append (s1 s2 : string) :
  String.length (s1 +:+ s2) = (String.length s1 + String.length s2)%nat.
Proof.
  induction s1 as [|c s1 IH]; [reflexivity|].
  rewrite append_cons. cbn. f_equal. exact IH.
Qed.

Lemma prefix_length (n : nat) (s : string) :
  (n <= String.length s)%nat -> String.length (JS.prefix n s) = n.
Proof.
  unfold JS.prefix. revert s.
  induction n as [|n IH]; intros [|c s] H; cbn in *; try reflexivity; try lia.
  rewrite IH; [reflexivity | lia].
Qed.

Lemma all_chars_append (p : ascii -> bool) (s1 s2 : string) :
  JS.all_chars p (s1 +:+ s2) = JS.all_chars p s1 && JS.all_chars p s2.
Proof.
  induction s1 as [|c s1 IH]; [reflexivity|].
  rewrite append_cons. cbn. rewrite IH. apply andb_assoc.
Qed.

Lemma all_chars_prefix (p : ascii -> bool) (n : nat) (s : string) :
  JS.all_chars p s = true -> JS.all_chars p (JS.prefix n s) = true.
Proof.
  unfold JS.prefix. revert s.
  induction n as [|n IH]; intros [|c s] H; cbn in *; try reflexivity.
  apply andb_true_iff in H. destruct H as [Hc Hs].
  rewrite Hc. cbn. now apply IH.
Qed.

Lemma join_cons (x : string) (xs : list string) :
  JS.join (x :: xs) = x +:+ JS.join xs.
Proof.
  unfold JS.join. destruct xs as [|y ys]; cbn.
  - symmetry. apply append_nil_r.
  - reflexivity.
Qed.

(** ** Challenge generator *)

Lemma hex_piece_length (b : byte) :
  String.length (JS.padStart 2 "_" (JS.Number_toString16 (Byte.to_N b))) = 2%nat.
Proof.
  destruct b; reflexivity.
Qed.

Lemma hex_piece_chars (b : byte) :
  JS.all_chars (fun c => JS.is_hex_char c || Ascii.eqb c "_")
    (JS.padStart 2 "_" (JS.Number_toString16 (Byte.to_N b))) = true.
Proof.
  destruct b; reflexivity.
Qed.

Lemma hex_pieces_length (bytes : list byte) :
  String.length
    (JS.join (map (fun b => JS.padStart 2 "_" (JS.Number_toString16 (Byte.to_N b))) bytes))
  = (2 * length bytes)%nat.
Proof.
  induction bytes as [|b bytes IH]; [reflexivity|].
  cbn [map]. rewrite join_cons, length_append, hex_piece_length, IH. cbn. lia.
Qed.

Lemma hex_pieces_chars (bytes : list byte) :
  JS.all_chars (fun c => JS.is_hex_char c || Ascii.eqb c "_")
    (JS.join (map (fun b => JS.padStart 2 "_" (JS.Number_toString16 (Byte.to_N b))) bytes))
  = true.
Proof.
  induction bytes as [|b bytes IH]; [reflexivity|].
  cbn [map]. rewrite join_cons, all_chars_append, hex_piece_chars, IH. reflexivity.
Qed.

(** The part of C2 that the code has: the string has exactly the
    requested number of characters, each a hexadecimal digit or the pad
    character [_]. *)
Lemma generateRandomString_shape (length : nat) (rng : nat -> byte) :
  String.length (generateRandomString length rng) = length /\
  JS.all_chars (fun c => JS.is_hex_char c || Ascii.eqb c "_")
    (generateRandomString length rng) = true.
Proof.
  unfold generateRandomString, getRandomValues. cbv zeta. split.
  - apply prefix_length. rewrite hex_pieces_length, length_map, length_seq. lia.
  - apply all_chars_prefix, hex_pieces_chars.
Qed.

(** C2 at a byte below 16: [byte.toString(16)] has one digit and
    [padStart(2, '_')] puts [_] before it, so the string asked with
    length 1 is ["_"], which is no hexadecimal digit. *)
Theorem generateRandomString_low_byte :
  generateRandomString 1 (fun _ => x05) = "_" /\
  JS.all_chars JS.is_hex_char (generateRandomString 1 (fun _ => x05)) = false /\
  generateRandomString 4 (fun i => nth i [x05; xab; x00; xff] x00) = "_5ab".
Proof.
  split; [reflexivity|]. split; reflexivity.
Qed.

(** ** PKCE challenge *)

Example btoa_rfc4648 :
  map Host.btoa ["f"; "fo"; "foo"; "foob"; "fooba"; "foobar"]
  = ["Zg=="; "Zm8="; "Zm9v"; "Zm9vYg=="; "Zm9vYmE="; "Zm9vYmFy"].
Proof. reflexivity. Qed.

Lemma replace_chain_cons (c : ascii) (s : string) :
  JS.replace_all "=" "" (JS.replace_all "/" "_" (JS.replace_all "+" "-" (String c s)))
  = (if Ascii.eqb c "=" then ""
     else if Ascii.eqb c "+" then "-"
     else if Ascii.eqb c "/" then "_"
     else String c "")
    +:+ JS.replace_all "=" "" (JS.replace_all "/" "_" (JS.replace_all "+" "-" s)).
Proof.
  cbn [JS.replace_all].
  destruct (Ascii.eqb_spec c "+") as [->|Hplus].
  - reflexivity.
  - rewrite append_cons, append_nil. cbn [JS.replace_all].
    destruct (Ascii.eqb_spec c "/") as [->|Hslash].
    + reflexivity.
    + rewrite append_cons, append_nil. cbn [JS.replace_all].
      destruct (Ascii.eqb c "="); reflexivity.
Qed.

(** The three replacements of the code, one after the other, do what the
    specification describes character by character. *)
Lemma replace_chain_base64url (s : string) :
  JS.replace_all "=" "" (JS.replace_all "/" "_" (JS.replace_all "+" "-" s))
  = base64url_of_base64 s.
Proof.
  induction s as [|c s IH]; [reflexivity|].
  rewrite replace_chain_cons, IH. cbn [base64url_of_base64].
  destruct (Ascii.eqb c "="); [reflexivity|].
  destruct (Ascii.eqb c "+"); [reflexivity|].
  destruct (Ascii.eqb c "/"); reflexivity.
Qed.

Lemma base64url_alphabet (s : string) :
  JS.all_chars (fun c => negb (is_base64_only_char c)) (base64url_of_base64 s) = true.
Proof.
  induction s as [|c s IH]; [reflexivity|].
  cbn [base64url_of_base64].
  destruct (Ascii.eqb c "=") eqn:E1; [exact IH|].
  destruct (Ascii.eqb c "+") eqn:E2; [cbn; exact IH|].
  destruct (Ascii.eqb c "/") eqn:E3; [cbn; exact IH|].
  cbn [JS.all_chars]. unfold is_base64_only_char at 1.
  rewrite E1, E2, E3. exact IH.
Qed.

(** C7.  For every verifier, [generateCodeChallenge] returns the
    base64url form (standard base64 with [+] turned into [-], [/] into
    [_] and [=] dropped) of the SHA-256 digest of the UTF-8 bytes of the
    verifier; it changes nothing, the result is the same from every
    state, and it contains no [+], [/] or [=]. *)
Theorem generateCodeChallenge_base64url
    (TextEncoder_encode : string -> list byte)
    (subtle_digest_SHA256 : list byte -> list byte)
    (codeVerifier : string) (st : State) :
  generateCodeChallenge TextEncoder_encode subtle_digest_SHA256 codeVerifier st
  = (Return (base64url (subtle_digest_SHA256 (TextEncoder_encode codeVerifier))), st) /\
  (forall st' : State,
      fst (generateCodeChallenge TextEncoder_encode subtle_digest_SHA256 codeVerifier st')
      = fst (generateCodeChallenge TextEncoder_encode subtle_digest_SHA256 codeVerifier st)) /\
  JS.all_chars (fun c => negb (is_base64_only_char c))
    (base64url (subtle_digest_SHA256 (TextEncoder_encode codeVerifier))) = true.
Proof.
  unfold generateCodeChallenge, base64url, ret. cbv zeta.
  rewrite replace_chain_base64url.
  split; [reflexivity|]. split; [reflexivity|].
  apply base64url_alphabet.
Qed.

(** The example of RFC 7636, appendix B: the digest of the verifier and
    the challenge it gives. *)
Example generateCodeChallenge_rfc7636 (st : State) :
  let digest : list byte :=
    [x13; xd3; x1e; x96; x1a; x1a; xd8; xec; x2f; x16; xb1; x0c; x4c; x98;
     x2e; x08; x76; xa8; x78; xad; x6d; xf1; x44; x56; x6e; xe1; x89; x4a;
     xcb; x70; xf9; xc3] in
  fst (generateCodeChallenge list_byte_of_string (fun _ => digest)
         "dBjftJeZ4CVP-mB92K27uhbUJU1p1r_wW1gFWFOEjXk" st)
  = Return "E9Melhoa2OwvFrEMTJguCHaoeK1t8URWbuGJSstw-cM".
Proof. reflexivity. Qed.

(** ** Token description *)

Lemma split_without_separator (sep : ascii) (s : string) :
  JS.all_chars (fun c => negb (Ascii.eqb c sep)) s = true ->
  JS.split sep s = [s].
Proof.
  induction s as [|c s IH]; [reflexivity|].
  cbn. intros H. apply andb_true_iff in H. destruct H as [Hc Hs].
  apply negb_true_iff in Hc. rewrite Hc, (IH Hs). reflexivity.
Qed.

Section DescribeProperties.

Variable any : Type.
Variable atob : string -> outcome string.
Variable JSON_parse : string -> outcome any.
Variable get_property : any -> string -> outcome any.
Variable is_truthy : any -> bool.
Variable literal : string -> any.
Variable seconds_toISOString : any -> outcome string.

Abbreviation describe_claims' :=
  (describe_claims any get_property is_truthy literal seconds_toISOString).
Abbreviation getTokenInfo' :=
  (getTokenInfo any atob JSON_parse get_property is_truthy literal seconds_toISOString).

Lemma describe_claims_state (token : string) (decoded : any) (st : State) :
  snd (describe_claims' token decoded st) = st.
Proof.
  unfold describe_claims. run.
  repeat match goal with
         | |- context [match ?o with Return _ => _ | Throw _ => _ end] =>
             destruct o; cbn [fst snd]
         | |- context [if ?b then _ else _] => destruct b; cbn [fst snd]
         end; reflexivity.
Qed.

(** [getTokenInfo()] returns [null] when no access token is held. *)
Lemma getTokenInfo_without_token (st : State) :
  accessToken st = None -> getTokenInfo' st = (Return None, st).
Proof.
  intros H. unfold getTokenInfo. run. rewrite H. reflexivity.
Qed.

(** [getTokenInfo()] never throws and changes nothing. *)
Lemma getTokenInfo_returns (st : State) :
  exists info, getTokenInfo' st = (Return info, st).
Proof.
  unfold getTokenInfo. run.
  destruct (negb (JS.truthy_opt (accessToken st))); [eauto|].
  destruct (JS.truthy_opt (JS.split "." (default "" (accessToken st)) !! 1%nat));
    [|eauto].
  destruct (atob _) as [raw|e]; [|eauto].
  destruct (JSON_parse raw) as [decoded|e]; [|eauto].
  pose proof (describe_claims_state (default "" (accessToken st)) decoded st) as Hst.
  destruct (describe_claims' _ decoded st) as [[info|e] st'];
    cbn in Hst; subst st'; eauto.
Qed.

(** A held token whose second segment is not base64, or decodes to what
    is not JSON, gets the basic descriptor. *)
Lemma getTokenInfo_undecodable_payload (st : State) (token payload : string) :
  accessToken st = Some token ->
  JS.truthy token = true ->
  JS.split "." token !! 1%nat = Some payload ->
  JS.truthy payload = true ->
  (match atob (JS.replace_all "_" "/" (JS.replace_all "-" "+" payload)) with
   | Return raw => exists e, JSON_parse raw = Throw e
   | Throw _ => True
   end) ->
  getTokenInfo' st
  = (Return (Some (BasicInfo (JS.prefix 20 token +:+ "...") "Bearer")), st).
Proof.
  intros Hheld Htok Hsplit Hpay Hfail. unfold getTokenInfo. run.
  rewrite Hheld. cbn [JS.truthy_opt default from_option id]. rewrite Htok. cbn [negb].
  rewrite Hsplit. cbn [JS.truthy_opt default from_option id]. rewrite Hpay.
  destruct (atob _) as [raw|e]; [|reflexivity].
  destruct Hfail as [e He]. rewrite He. reflexivity.
Qed.

(** A held token without a dot has no second segment: the [try] block
    is left without a [return] and the method returns [null]. *)
Lemma getTokenInfo_single_segment (st : State) (token : string) :
  accessToken st = Some token ->
  JS.all_chars (fun c => negb (Ascii.eqb c ".")) token = true ->
  getTokenInfo' st = (Return None, st).
Proof.
  intros Hheld Hdots. unfold getTokenInfo. run.
  rewrite Hheld. cbn [JS.truthy_opt default from_option id].
  destruct (JS.truthy token); [|reflexivity]. cbn [negb].
  rewrite (split_without_separator _ _ Hdots). reflexivity.
Qed.

(** C9 at an opaque token: the client holds ["opaque-access-token"],
    which is not of the three-segment form, and [getTokenInfo()] returns
    [null], not the basic descriptor. *)
Theorem getTokenInfo_opaque_token (st : State) :
  isAuthenticated (with_accessToken (Some "opaque-access-token") st) = true /\
  getTokenInfo' (with_accessToken (Some "opaque-access-token") st)
  = (Return None, with_accessToken (Some "opaque-access-token") st).
Proof.
  split; [reflexivity|].
  apply getTokenInfo_single_segment with (token := "opaque-access-token");
    reflexivity.
Qed.

End DescribeProperties.

(** * Further properties of the session manager *)

(** ** Every way an exchange ends *)

Lemma exchange_cases (config : AuthConfig) (fetch : Request -> FetchResult)
    (now : Z) (code codeVerifier : string) (st : State) :
  exchangeCodeForToken config fetch now code codeVerifier st =
  let request := token_request config code codeVerifier in
  let sent := with_requests (requests st ++ [request]) st in
  let failed (e : exn) : outcome bool * State :=
    (Throw e, with_console (console sent ++ [LogExn "Token exchange error:" e]) sent) in
  match fetch request with
  | Rejected e => failed e
  | Fulfilled response =>
      if ok response then
        match json response with
        | Return tr =>
            (Return true,
             snd (saveTokensToStorage now tr
                    (with_refreshToken (JS.or_null (refresh_token tr))
                       (with_accessToken (Some (access_token tr)) sent))))
        | Throw e => failed e
        end
      else failed (TokenExchangeFailed (status response) (text response))
  end.
Proof.
  unfold exchangeCodeForToken. run. cbv zeta.
  destruct (fetch _) as [e|response]; [reflexivity|].
  destruct (ok response); cbn [negb]; [|reflexivity].
  destruct (json response) as [tr|e]; [|reflexivity].
  rewrite !saveTokensToStorage_spec. reflexivity.
Qed.

(** An exchange sends exactly one request, whatever its outcome, and
    touches neither [sessionStorage] nor the location. *)
Lemma exchange_sends_one_request (config : AuthConfig)
    (fetch : Request -> FetchResult) (now : Z) (code codeVerifier : string)
    (st : State) :
  let result := exchangeCodeForToken config fetch now code codeVerifier st in
  requests (snd result) = (requests st ++ [token_request config code codeVerifier])%list /\
  sessionStorage (snd result) = sessionStorage st /\
  pathname (snd result) = pathname st /\
  search (snd result) = search st /\
  href (snd result) = href st.
Proof.
  cbv zeta. rewrite exchange_cases. cbv zeta.
  destruct (fetch _) as [e|response]; [cbn; auto|].
  destruct (ok response); [|cbn; auto].
  destruct (json response) as [tr|e]; [|cbn; auto].
  rewrite saveTokensToStorage_spec. cbn. auto.
Qed.

Lemma exchange_fails_run (config : AuthConfig)
    (fetch : Request -> FetchResult) (now : Z) (code codeVerifier : string)
    (st : State) (e : exn) :
  exchange_fails config fetch code codeVerifier e ->
  exchangeCodeForToken config fetch now code codeVerifier st =
  (Throw e,
   with_console (console st ++ [LogExn "Token exchange error:" e])
     (with_requests (requests st ++ [token_request config code codeVerifier]) st)).
Proof.
  unfold exchange_fails. intros H. rewrite exchange_cases. cbv zeta.
  destruct (fetch _) as [e'|response]; [subst; reflexivity|].
  destruct (ok response); [|subst; reflexivity].
  rewrite H. reflexivity.
Qed.

(** X1.  An exchange that fails because the request was rejected,
    because the status was not in 200-299 or because the body of the
    response was not JSON throws that error and leaves the tokens held
    in memory and [localStorage] as they were; the error is the last
    line of the console.  These are the failures that come before the
    token fields are assigned. *)
Theorem exchange_failure_is_atomic (config : AuthConfig)
    (fetch : Request -> FetchResult) (now : Z) (code codeVerifier : string)
    (st : State) (e : exn) :
  exchange_fails config fetch code codeVerifier e ->
  let result := exchangeCodeForToken config fetch now code codeVerifier st in
  fst result = Throw e /\
  accessToken (snd result) = accessToken st /\
  refreshToken (snd result) = refreshToken st /\
  localStorage (snd result) = localStorage st /\
  console (snd result) = (console st ++ [LogExn "Token exchange error:" e])%list.
Proof.
  intros H. cbv zeta. rewrite (exchange_fails_run _ _ _ _ _ _ _ H). cbn. auto.
Qed.

Lemma exchange_failure_is_atomic_witness :
  let result :=
    exchangeCodeForToken demo_config
      (endpoint 200 "<html>" (Throw (HostError "SyntaxError" "Unexpected token <")))
      5000 "code-2" "verifier-2" (signed_in "tok" "ref" "9000") in
  fst result = Throw (HostError "SyntaxError" "Unexpected token <") /\
  accessToken (snd result) = Some "tok" /\
  refreshToken (snd result) = Some "ref" /\
  localStorage (snd result) = localStorage (signed_in "tok" "ref" "9000") /\
  console (snd result) = [LogExn "Token exchange error:"
                            (HostError "SyntaxError" "Unexpected token <")].
Proof.
  apply (exchange_failure_is_atomic demo_config
           (endpoint 200 "<html>" (Throw (HostError "SyntaxError" "Unexpected token <")))
           5000 "code-2" "verifier-2" (signed_in "tok" "ref" "9000")
           (HostError "SyntaxError" "Unexpected token <")).
  reflexivity.
Defined.

(** X2.  When [fetch] rejects, the exchange throws the very error of the
    rejection after one request was sent, and installs nothing. *)
Theorem exchange_network_failure (config : AuthConfig)
    (fetch : Request -> FetchResult) (now : Z) (code codeVerifier : string)
    (st : State) (e : exn) :
  fetch (token_request config code codeVerifier) = Rejected e ->
  let result := exchangeCodeForToken config fetch now code codeVerifier st in
  fst result = Throw e /\
  requests (snd result) = (requests st ++ [token_request config code codeVerifier])%list /\
  accessToken (snd result) = accessToken st /\
  refreshToken (snd result) = refreshToken st /\
  localStorage (snd result) = localStorage st.
Proof.
  intros Hf. cbv zeta. rewrite exchange_cases. cbv zeta. rewrite Hf. cbn. auto.
Qed.

Lemma exchange_network_failure_witness :
  let result :=
    exchangeCodeForToken demo_config
      (fun _ => Rejected (HostError "TypeError" "Failed to fetch"))
      5000 "code-2" "verifier-2" (signed_in "tok" "ref" "9000") in
  fst result = Throw (HostError "TypeError" "Failed to fetch") /\
  requests (snd result) = [token_request demo_config "code-2" "verifier-2"] /\
  accessToken (snd result) = Some "tok" /\
  refreshToken (snd result) = Some "ref" /\
  localStorage (snd result) = localStorage (signed_in "tok" "ref" "9000").
Proof.
  apply (exchange_network_failure demo_config
           (fun _ => Rejected (HostError "TypeError" "Failed to fetch"))
           5000 "code-2" "verifier-2" (signed_in "tok" "ref" "9000")
           (HostError "TypeError" "Failed to fetch")).
  reflexivity.
Defined.

(** X3.  A successful exchange whose response has a non-empty
    [refresh_token] holds it in memory and writes it to [localStorage];
    an empty one is treated as absent: the refresh token in memory is
    [null] and the durable entry is what it was. *)
Theorem exchange_refresh_token (config : AuthConfig)
    (fetch : Request -> FetchResult) (now : Z) (code codeVerifier : string)
    (st : State) (response : Response) (tr : TokenResponse) (r : string) :
  fetch (token_request config code codeVerifier) = Fulfilled response ->
  (200 <= status response <= 299)%N ->
  json response = Return tr ->
  refresh_token tr = Some r ->
  let st' := snd (exchangeCodeForToken config fetch now code codeVerifier st) in
  (JS.truthy r = true ->
   refreshToken st' = Some r /\ localStorage st' !! "refresh_token" = Some r) /\
  (r = "" ->
   refreshToken st' = None /\
   localStorage st' !! "refresh_token" = localStorage st !! "refresh_token").
Proof.
  intros Hf Hstatus Hj Hr. apply ok_iff in Hstatus.
  destruct (exchange_ok_state config fetch now code codeVerifier st
              response tr Hf Hstatus Hj) as (_ & _ & Hm & Hl).
  cbv zeta. rewrite Hm, Hl, saveTokensToStorage_spec, Hr. cbn. split.
  - intros Ht. unfold JS.or_null. cbn. rewrite Ht. split; [reflexivity|].
    destruct (expires_in tr) as [s|]; [destruct (s =? 0)%Z|];
      simplify_map_eq; reflexivity.
  - intros ->. split; [reflexivity|]. cbn.
    destruct (expires_in tr) as [s|]; [destruct (s =? 0)%Z|];
      simplify_map_eq; reflexivity.
Qed.

Lemma exchange_refresh_token_witness :
  let st' :=
    snd (exchangeCodeForToken demo_config
           (endpoint 200 "" (Return (bearer "new" (Some 60%Z) (Some "new-refresh"))))
           5000 "code-2" "verifier-2" (signed_in "old" "old-refresh" "1000")) in
  refreshToken st' = Some "new-refresh" /\
  localStorage st' !! "refresh_token" = Some "new-refresh".
Proof.
  refine (proj1 (exchange_refresh_token demo_config
           (endpoint 200 "" (Return (bearer "new" (Some 60%Z) (Some "new-refresh"))))
           5000 "code-2" "verifier-2" (signed_in "old" "old-refresh" "1000")
           {| status := 200; text := "";
              json := Return (bearer "new" (Some 60%Z) (Some "new-refresh")) |}
           (bearer "new" (Some 60%Z) (Some "new-refresh")) "new-refresh"
           _ _ _ _) _).
  - reflexivity.
  - cbn. lia.
  - reflexivity.
  - reflexivity.
  - reflexivity.
Defined.

(** ** The other steps of the callback *)

(** X4.  Without a non-empty [error], a query whose [code] or [state] is
    absent or empty makes [handleCallback()] throw the error for a
    missing parameter; nothing has changed and no request is sent. *)
Theorem handleCallback_missing_parameter (config : AuthConfig)
    (fetch : Request -> FetchResult) (now : Z) (st : State) :
  JS.truthy_opt (Host.params_get "error" (search st)) = false ->
  JS.truthy_opt (Host.params_get "code" (search st)) = false \/
  JS.truthy_opt (Host.params_get "state" (search st)) = false ->
  handleCallback config fetch now st = (Throw MalformedCallback, st).
Proof.
  intros He Hmiss. rewrite (handleCallback_no_error _ _ _ _ He). cbv zeta.
  destruct Hmiss as [-> | ->]; [reflexivity|].
  rewrite orb_true_r. reflexivity.
Qed.

Lemma handleCallback_missing_parameter_witness :
  let st := page [] [("oauth_state", "expected"); ("oauth_code_verifier", "ver")]
              "/callback" [("state", "expected")] in
  handleCallback demo_config (endpoint 200 "" (Return (bearer "new" None None)))
    5000 st = (Throw MalformedCallback, st).
Proof.
  apply handleCallback_missing_parameter; [reflexivity | left; reflexivity].
Defined.

(** X5.  When the query passes the state check and [sessionStorage] has no
    [oauth_code_verifier], or an empty one, [handleCallback()] throws
    the error for a missing verifier; nothing has changed: the stored
    [oauth_state] is still there and no request is sent. *)
Theorem handleCallback_missing_verifier (config : AuthConfig)
    (fetch : Request -> FetchResult) (now : Z) (st : State) (s : string) :
  JS.truthy_opt (Host.params_get "error" (search st)) = false ->
  JS.truthy_opt (Host.params_get "code" (search st)) = true ->
  Host.params_get "state" (search st) = Some s ->
  JS.truthy s = true ->
  sessionStorage st !! "oauth_state" = Some s ->
  JS.truthy_opt (sessionStorage st !! "oauth_code_verifier") = false ->
  handleCallback config fetch now st = (Throw MissingVerifier, st).
Proof.
  intros He Hc Hs Ht Hstored Hv.
  rewrite (handleCallback_no_error _ _ _ _ He). cbv zeta.
  rewrite Hc, Hs, Hstored, Hv. cbn [JS.truthy_opt]. rewrite Ht. cbn [negb orb].
  rewrite bool_decide_eq_true_2 by reflexivity. reflexivity.
Qed.

Lemma handleCallback_missing_verifier_witness :
  let st := page [] [("oauth_state", "expected")]
              "/callback" [("code", "abc"); ("state", "expected")] in
  handleCallback demo_config (endpoint 200 "" (Return (bearer "new" None None)))
    5000 st = (Throw MissingVerifier, st).
Proof.
  apply (handleCallback_missing_verifier demo_config
           (endpoint 200 "" (Return (bearer "new" None None))) 5000
           (page [] [("oauth_state", "expected")]
              "/callback" [("code", "abc"); ("state", "expected")])
           "expected"); reflexivity.
Defined.

Lemma handleCallback_pending (config : AuthConfig)
    (fetch : Request -> FetchResult) (now : Z) (st : State)
    (code state verifier : string) :
  handshake_pending st code state verifier ->
  handleCallback config fetch now st =
  exchangeCodeForToken config fetch now code verifier
    (with_sessionStorage
       (delete "oauth_code_verifier" (delete "oauth_state" (sessionStorage st))) st).
Proof.
  intros (He & Hc & Htc & Hs & Hts & Hstored & Hv & Htv).
  rewrite (handleCallback_no_error _ _ _ _ He). cbv zeta.
  rewrite Hc, Hs, Hstored, Hv. cbn [JS.truthy_opt]. rewrite Htc, Hts, Htv.
  cbn [negb orb]. rewrite bool_decide_eq_true_2 by reflexivity. reflexivity.
Qed.

Lemma handleCallback_consumes_handshake_aux (config : AuthConfig)
    (fetch : Request -> FetchResult) (now : Z) (st : State)
    (code state verifier : string) :
  handshake_pending st code state verifier ->
  sessionStorage (snd (handleCallback config fetch now st)) !! "oauth_state" = None /\
  search (snd (handleCallback config fetch now st)) = search st.
Proof.
  intros Hp. rewrite (handleCallback_pending _ _ _ _ _ _ _ Hp).
  match goal with |- context [exchangeCodeForToken ?c ?f ?n ?a ?b ?s] =>
    destruct (exchange_sends_one_request c f n a b s) as (_ & Hss & _ & Hq & _)
  end.
  rewrite Hss, Hq. cbn. split; [simplify_map_eq|]; reflexivity.
Qed.

(** X6.  A callback that passes all checks uses the handshake up: both
    [oauth_state] and [oauth_code_verifier] are gone from
    [sessionStorage] and exactly one request, carrying the code of the
    query and the stored verifier, has been sent, however the exchange
    ends. *)
Theorem handleCallback_consumes_handshake (config : AuthConfig)
    (fetch : Request -> FetchResult) (now : Z) (st : State)
    (code state verifier : string) :
  handshake_pending st code state verifier ->
  let st' := snd (handleCallback config fetch now st) in
  sessionStorage st' !! "oauth_state" = None /\
  sessionStorage st' !! "oauth_code_verifier" = None /\
  requests st' = (requests st ++ [token_request config code verifier])%list.
Proof.
  intros Hp. cbv zeta. rewrite (handleCallback_pending _ _ _ _ _ _ _ Hp).
  match goal with |- context [exchangeCodeForToken ?c ?f ?n ?a ?b ?s] =>
    destruct (exchange_sends_one_request c f n a b s) as (Hr & Hss & _)
  end.
  rewrite Hr, Hss. cbn. repeat split; simplify_map_eq; reflexivity.
Qed.

Lemma handleCallback_consumes_handshake_witness :
  let st := page [] [("oauth_state", "expected"); ("oauth_code_verifier", "ver")]
              "/callback" [("code", "abc"); ("state", "expected")] in
  let st' :=
    snd (handleCallback demo_config (endpoint 500 "oops" (Throw (Error "")))
           5000 st) in
  sessionStorage st' !! "oauth_state" = None /\
  sessionStorage st' !! "oauth_code_verifier" = None /\
  requests st' = [token_request demo_config "abc" "ver"].
Proof.
  apply (handleCallback_consumes_handshake demo_config
           (endpoint 500 "oops" (Throw (Error ""))) 5000
           (page [] [("oauth_state", "expected"); ("oauth_code_verifier", "ver")]
              "/callback" [("code", "abc"); ("state", "expected")])
           "abc" "expected" "ver").
  repeat split; reflexivity.
Defined.

(** X7.  A callback cannot be replayed.  After a call that passed all
    checks, a second [handleCallback()] on the same query throws the
    error for a state mismatch, whatever the network would answer, and
    changes nothing. *)
Theorem handleCallback_replay (config : AuthConfig)
    (fetch fetch' : Request -> FetchResult) (now now' : Z) (st : State)
    (code state verifier : string) :
  handshake_pending st code state verifier ->
  let st' := snd (handleCallback config fetch now st) in
  handleCallback config fetch' now' st' = (Throw StateMismatch, st').
Proof.
  intros Hp. cbv zeta.
  pose proof (handleCallback_consumes_handshake_aux config fetch now st
                code state verifier Hp) as (Hgone & Hsearch).
  destruct Hp as (He & Hc & Htc & Hs & Hts & _).
  rewrite handleCallback_no_error by (rewrite Hsearch; exact He).
  cbv zeta. rewrite Hsearch, Hc, Hs, Hgone. cbn [JS.truthy_opt].
  rewrite Htc, Hts. cbn [negb orb].
  rewrite bool_decide_eq_false_2 by discriminate. reflexivity.
Qed.

Lemma handleCallback_replay_witness :
  let st := page [] [("oauth_state", "expected"); ("oauth_code_verifier", "ver")]
              "/callback" [("code", "abc"); ("state", "expected")] in
  let st' :=
    snd (handleCallback demo_config
           (endpoint 200 "" (Return (bearer "new" None None))) 5000 st) in
  handleCallback demo_config (endpoint 200 "" (Return (bearer "again" None None)))
    6000 st' = (Throw StateMismatch, st').
Proof.
  apply (handleCallback_replay demo_config
           (endpoint 200 "" (Return (bearer "new" None None)))
           (endpoint 200 "" (Return (bearer "again" None None))) 5000 6000
           (page [] [("oauth_state", "expected"); ("oauth_code_verifier", "ver")]
              "/callback" [("code", "abc"); ("state", "expected")])
           "abc" "expected" "ver").
  repeat split; reflexivity.
Defined.

(** X8.  When [handleCallback()] stops at one of its four checks, or
    passes them and the exchange fails because the request was rejected,
    the status was not in 200-299 or the body was not JSON, it throws
    and no token state was installed: the tokens held in memory and
    [localStorage] are as before. *)
Theorem handleCallback_failure_is_atomic (config : AuthConfig)
    (fetch : Request -> FetchResult) (now : Z) (st : State) :
  callback_stops st \/
  (exists code state verifier e,
      handshake_pending st code state verifier /\
      exchange_fails config fetch code verifier e) ->
  let result := handleCallback config fetch now st in
  (exists e, fst result = Throw e) /\
  accessToken (snd result) = accessToken st /\
  refreshToken (snd result) = refreshToken st /\
  localStorage (snd result) = localStorage st.
Proof.
  intros [Hstop | (code & state & verifier & e & Hp & Hfail)]; cbv zeta.
  - destruct (JS.truthy_opt (Host.params_get "error" (search st))) eqn:He.
    + apply truthy_opt_Some in He. destruct He as (err & He & Ht).
      rewrite (handleCallback_error _ _ _ _ _ He Ht). cbn. eauto.
    + rewrite (handleCallback_no_error _ _ _ _ He). cbv zeta.
      destruct (JS.truthy_opt (Host.params_get "code" (search st))) eqn:Hc;
        [|cbn; eauto].
      destruct (JS.truthy_opt (Host.params_get "state" (search st))) eqn:Hs;
        [|cbn; eauto].
      cbn [negb orb].
      destruct (bool_decide (Host.params_get "state" (search st)
                             = sessionStorage st !! "oauth_state")) eqn:Hd;
        [|cbn; eauto].
      destruct (JS.truthy_opt (sessionStorage st !! "oauth_code_verifier")) eqn:Hv;
        [|cbn; eauto].
      apply bool_decide_eq_true in Hd.
      destruct Hstop as [H | [H | [H | [H | H]]]]; congruence.
  - rewrite (handleCallback_pending _ _ _ _ _ _ _ Hp),
      (exchange_fails_run _ _ _ _ _ _ _ Hfail). cbn. eauto.
Qed.

Lemma handleCallback_failure_is_atomic_witness :
  let st := mkState (Some "tok") (Some "ref")
              (list_to_map [("access_token", "tok"); ("refresh_token", "ref")])
              (list_to_map [("oauth_state", "expected"); ("oauth_code_verifier", "ver")])
              "/callback" [("code", "abc"); ("state", "expected")] None [] [] in
  let result :=
    handleCallback demo_config
      (endpoint 400 "invalid_grant" (Throw (Error ""))) 5000 st in
  (exists e, fst result = Throw e) /\
  accessToken (snd result) = Some "tok" /\
  refreshToken (snd result) = Some "ref" /\
  localStorage (snd result) = localStorage st.
Proof.
  apply (handleCallback_failure_is_atomic demo_config
           (endpoint 400 "invalid_grant" (Throw (Error ""))) 5000
           (mkState (Some "tok") (Some "ref")
              (list_to_map [("access_token", "tok"); ("refresh_token", "ref")])
              (list_to_map [("oauth_state", "expected"); ("oauth_code_verifier", "ver")])
              "/callback" [("code", "abc"); ("state", "expected")] None [] [])).
  right. exists "abc", "expected", "ver", (TokenExchangeFailed 400 "invalid_grant").
  split; [repeat split; reflexivity | reflexivity].
Defined.

(** X9.  A login completes.  When the callback passes all checks and the
    token endpoint answers the request with a status in 200-299 and a
    token response, [handleCallback()] returns true, the client is
    authenticated with the access token of the response, which is also
    in [localStorage], and the location is as it was. *)
Theorem handleCallback_login (config : AuthConfig)
    (fetch : Request -> FetchResult) (now : Z) (st : State)
    (code state verifier : string) (response : Response) (tr : TokenResponse) :
  handshake_pending st code state verifier ->
  fetch (token_request config code verifier) = Fulfilled response ->
  (200 <= status response <= 299)%N ->
  json response = Return tr ->
  let result := handleCallback config fetch now st in
  fst result = Return true /\
  isAuthenticated (snd result) = true /\
  getAccessToken (snd result) = Some (access_token tr) /\
  localStorage (snd result) !! "access_token" = Some (access_token tr) /\
  pathname (snd result) = pathname st /\
  search (snd result) = search st.
Proof.
  intros Hp Hf Hstatus Hj. cbv zeta. apply ok_iff in Hstatus.
  rewrite (handleCallback_pending _ _ _ _ _ _ _ Hp).
  match goal with |- context [exchangeCodeForToken ?c ?f ?n ?a ?b ?s] =>
    destruct (exchange_ok_state c f n a b s response tr Hf Hstatus Hj)
      as (Hr & Ha & _ & Hl);
    destruct (exchange_sends_one_request c f n a b s) as (_ & _ & Hpath & Hq & _)
  end.
  unfold isAuthenticated, getAccessToken.
  rewrite Hr, Ha, Hl, Hpath, Hq, saveTokensToStorage_spec. cbn.
  repeat split.
  destruct (refresh_token tr) as [r|], (expires_in tr) as [s|];
    try destruct (JS.truthy r); try destruct (s =? 0)%Z;
    simplify_map_eq; reflexivity.
Qed.

Lemma handleCallback_login_witness :
  let st := page [] [("oauth_state", "expected"); ("oauth_code_verifier", "ver")]
              "/callback" [("code", "abc"); ("state", "expected")] in
  let result :=
    handleCallback demo_config
      (endpoint 200 "" (Return (bearer "new" (Some 3600%Z) None))) 5000 st in
  fst result = Return true /\
  isAuthenticated (snd result) = true /\
  getAccessToken (snd result) = Some "new" /\
  localStorage (snd result) !! "access_token" = Some "new" /\
  pathname (snd result) = "/callback" /\
  search (snd result) = [("code", "abc"); ("state", "expected")].
Proof.
  apply (handleCallback_login demo_config
           (endpoint 200 "" (Return (bearer "new" (Some 3600%Z) None))) 5000
           (page [] [("oauth_state", "expected"); ("oauth_code_verifier", "ver")]
              "/callback" [("code", "abc"); ("state", "expected")])
           "abc" "expected" "ver"
           {| status := 200; text := "";
              json := Return (bearer "new" (Some 3600%Z) None) |}
           (bearer "new" (Some 3600%Z) None)).
  - repeat split; reflexivity.
  - reflexivity.
  - cbn. lia.
  - reflexivity.
Defined.

(** ** What is saved is what is loaded *)

Lemma parse_digits_acc (d : Decimal.uint) (acc : positive) :
  JS.parse_digits 10 (Some (Npos acc)) (DecimalString.NilEmpty.string_of_uint d)
  = Some (Npos (Pos.of_uint_acc d acc)).
Proof.
  revert acc.
  induction d; intros acc; cbn [DecimalString.NilEmpty.string_of_uint JS.parse_digits];
    [reflexivity | ..];
    match goal with
    | |- context [JS.digit_value 10 ?c] =>
        let v := eval vm_compute in (JS.digit_value 10 c) in
        change (JS.digit_value 10 c) with v
    end; cbn [default from_option id Pos.of_uint_acc];
    (etransitivity; [|apply IHd]); f_equal; f_equal; lia.
Qed.

Lemma parse_digits_uint (d : Decimal.uint) :
  JS.parse_digits 10 (Some 0%N) (DecimalString.NilEmpty.string_of_uint d) = Some (Pos.of_uint d).
Proof.
  induction d; cbn [DecimalString.NilEmpty.string_of_uint JS.parse_digits Pos.of_uint];
    [reflexivity | exact IHd | ..]; apply parse_digits_acc.
Qed.

Lemma parse_digits_start (radix : N) (c : ascii) (rest : string) :
  JS.digit_value radix c <> None ->
  JS.parse_digits radix None (String c rest)
  = JS.parse_digits radix (Some 0%N) (String c rest).
Proof.
  intros H. cbn [JS.parse_digits].
  destruct (JS.digit_value radix c); [reflexivity | congruence].
Qed.

Ltac parse_prefix :=
  unfold JS.parseInt; cbn [DecimalString.NilEmpty.string_of_uint JS.skip_white_space] in *;
  repeat match goal with
         | |- context [JS.is_white_space ?c] =>
             let v := eval vm_compute in (JS.is_white_space c) in
             change (JS.is_white_space c) with v
         end;
  cbv beta iota zeta.

Lemma parseInt_digits (d : Decimal.uint) :
  d <> Decimal.Nil ->
  JS.parseInt (DecimalString.NilEmpty.string_of_uint d) = Some (Z.of_N (Pos.of_uint d)) /\
  JS.parseInt (String "-" (DecimalString.NilEmpty.string_of_uint d))
  = Some (- Z.of_N (Pos.of_uint d))%Z.
Proof.
  intros Hd. pose proof (parse_digits_uint d) as H.
  destruct d as [|d|d|d|d|d|d|d|d|d|d]; [congruence | ..].
  2-10: parse_prefix;
    rewrite parse_digits_start by (vm_compute; discriminate); rewrite H;
    split; f_equal; lia.
  destruct d as [|d|d|d|d|d|d|d|d|d|d]; parse_prefix;
    rewrite parse_digits_start by (vm_compute; discriminate); rewrite H;
    split; f_equal; lia.
Qed.

(** [parseInt] reads back every integer that [toString] printed. *)
Lemma parseInt_Number_toString (z : Z) :
  JS.parseInt (JS.Number_toString z) = Some z.
Proof.
  unfold JS.Number_toString. destruct z as [|p|p]; [reflexivity | ..];
    cbn [Z.to_int DecimalString.NilEmpty.string_of_int];
    destruct (parseInt_digits (Pos.to_uint p)
                (DecimalPos.Unsigned.to_uint_nonnil p)) as [H1 H2];
    [rewrite H1 | rewrite H2]; rewrite DecimalPos.Unsigned.of_to; reflexivity.
Qed.

(** X10.  A session survives a reload exactly until it expires.  After a
    successful exchange at time [now] whose response has a non-zero
    [expires_in] s, where [now], s * 1000 and their sum are safe
    integers, a client constructed later at time [now'] over the same
    [localStorage] is authenticated if and only if [now'] is not past
    [now + s * 1000]; then it holds the access token of the response and
    the storage is untouched, otherwise the three entries are
    removed. *)
Theorem session_survives_reload (config : AuthConfig)
    (fetch : Request -> FetchResult) (now now' : Z) (code codeVerifier : string)
    (st : State) (response : Response) (tr : TokenResponse) (s : Z) :
  fetch (token_request config code codeVerifier) = Fulfilled response ->
  (200 <= status response <= 299)%N ->
  json response = Return tr ->
  expires_in tr = Some s ->
  s <> 0%Z ->
  exact_expiry now s ->
  let saved := snd (exchangeCodeForToken config fetch now code codeVerifier st) in
  let reloaded := snd (constructor now' saved) in
  isAuthenticated reloaded = (now' <=? now + s * 1000)%Z /\
  ((now' <= now + s * 1000)%Z ->
   getAccessToken reloaded = Some (access_token tr) /\
   localStorage reloaded = localStorage saved) /\
  ((now + s * 1000 < now')%Z ->
   localStorage reloaded !! "access_token" = None /\
   localStorage reloaded !! "refresh_token" = None /\
   localStorage reloaded !! "token_expires_at" = None).
Proof.
  intros Hf Hstatus Hj Hs Hnz _. apply ok_iff in Hstatus. cbv zeta.
  destruct (exchange_ok_state config fetch now code codeVerifier st
              response tr Hf Hstatus Hj) as (_ & _ & _ & Hl).
  rewrite saveTokensToStorage_spec in Hl. cbn in Hl. rewrite Hs in Hl.
  apply Z.eqb_neq in Hnz. rewrite Hnz in Hl.
  set (saved := snd (exchangeCodeForToken config fetch now code codeVerifier st)) in *.
  assert (Hexp : localStorage saved !! "token_expires_at"
                 = Some (JS.Number_toString (now + s * 1000))).
  { rewrite Hl. simplify_map_eq. reflexivity. }
  assert (Hacc : localStorage saved !! "access_token" = Some (access_token tr)).
  { rewrite Hl.
    destruct (refresh_token tr) as [r|]; [destruct (JS.truthy r)|];
      simplify_map_eq; reflexivity. }
  rewrite constructor_unfold. cbv zeta. rewrite Hexp.
  rewrite (parseInt_truthy _ _ (parseInt_Number_toString _)),
    parseInt_Number_toString.
  cbn [andb JS.number_gt].
  destruct (Z.ltb_spec (now + s * 1000) now') as [Hlt|Hge].
  - destruct (logout_clears_session_aux
                (with_refreshToken (localStorage saved !! "refresh_token")
                   (with_accessToken (localStorage saved !! "access_token") saved)))
      as (_ & Hauth & H1 & H2 & H3).
    rewrite Hauth. split; [symmetry; apply Z.leb_gt; lia|].
    split; [lia | auto].
  - unfold isAuthenticated, getAccessToken. cbn. rewrite Hacc.
    split; [symmetry; apply Z.leb_le; lia|].
    split; [auto | lia].
Qed.

Lemma session_survives_reload_witness :
  let saved :=
    snd (exchangeCodeForToken demo_config
           (endpoint 200 "" (Return (bearer "abc" (Some 3600%Z) None)))
           1000 "code-1" "verifier-1" (page [] [] "/callback" [])) in
  isAuthenticated (snd (constructor 3601000 saved)) = true /\
  isAuthenticated (snd (constructor 3601001 saved)) = false.
Proof.
  split.
  - refine (proj1 (session_survives_reload demo_config
           (endpoint 200 "" (Return (bearer "abc" (Some 3600%Z) None)))
           1000 3601000 "code-1" "verifier-1" (page [] [] "/callback" [])
           {| status := 200; text := "";
              json := Return (bearer "abc" (Some 3600%Z) None) |}
           (bearer "abc" (Some 3600%Z) None) 3600%Z _ _ _ _ _ _));
      [reflexivity | cbn; lia | reflexivity | reflexivity | lia
      | split; [reflexivity | split; reflexivity]].
  - refine (proj1 (session_survives_reload demo_config
           (endpoint 200 "" (Return (bearer "abc" (Some 3600%Z) None)))
           1000 3601001 "code-1" "verifier-1" (page [] [] "/callback" [])
           {| status := 200; text := "";
              json := Return (bearer "abc" (Some 3600%Z) None) |}
           (bearer "abc" (Some 3600%Z) None) 3600%Z _ _ _ _ _ _));
      [reflexivity | cbn; lia | reflexivity | reflexivity | lia
      | split; [reflexivity | split; reflexivity]].
Defined.

(** ** Construction and logout at the edges *)

(** X11.  The constructed client is authenticated exactly when
    [localStorage] has an [access_token] entry and its
    [token_expires_at] entry does not read as an instant before the
    current time.  An entry that is empty or not a number, or that is the
    current time itself, keeps the session. *)
Theorem constructor_authenticated_iff (now : Z) (st : State) :
  isAuthenticated (snd (constructor now st)) = true <->
  (exists t, localStorage st !! "access_token" = Some t) /\
  ~ (exists e v, localStorage st !! "token_expires_at" = Some e /\
                 JS.parseInt e = Some v /\ (v < now)%Z).
Proof.
  rewrite constructor_unfold. cbv zeta.
  destruct (localStorage st !! "token_expires_at") as [e|] eqn:He.
  - destruct (JS.truthy e && JS.number_gt now (JS.parseInt e)) eqn:Hexp.
    + destruct (logout_clears_session_aux
                  (with_refreshToken (localStorage st !! "refresh_token")
                     (with_accessToken (localStorage st !! "access_token") st)))
        as (_ & Hauth & _).
      rewrite Hauth. split; [discriminate|].
      intros [_ Hnot]. exfalso. apply Hnot.
      apply andb_true_iff in Hexp. destruct Hexp as [_ Hgt].
      destruct (JS.parseInt e) as [v|] eqn:Hv; [|discriminate].
      exists e, v. unfold JS.number_gt in Hgt. apply Z.ltb_lt in Hgt.
      split; [reflexivity|]. split; [exact Hv | exact Hgt].
    + unfold isAuthenticated. cbn.
      destruct (localStorage st !! "access_token") as [t|].
      * split; [|reflexivity]. intros _. split; [eauto|].
        intros (e' & v & [= <-] & Hv & Hlt).
        rewrite (parseInt_truthy e v Hv), Hv in Hexp. cbn in Hexp.
        apply Z.ltb_ge in Hexp. lia.
      * split; [discriminate|]. intros [[t Ht] _]. discriminate.
  - unfold isAuthenticated. cbn.
    destruct (localStorage st !! "access_token") as [t|].
    + split; [|reflexivity]. intros _. split; [eauto|].
      intros (e & v & Hsome & _). discriminate.
    + split; [discriminate|]. intros [[t Ht] _]. discriminate.
Qed.

(** X12.  Constructing the client on the callback page while the stored
    token has expired clears the query of the callback: the logout run
    by the constructor replaces the location by [/], so the
    [handleCallback()] that follows finds neither [code] nor [state],
    throws the error for a missing parameter and sends no request. *)
Theorem constructor_expired_drops_callback (config : AuthConfig)
    (fetch : Request -> FetchResult) (now now' : Z) (st : State) (e : string) (v : Z) :
  pathname st = "/callback" ->
  localStorage st !! "token_expires_at" = Some e ->
  JS.parseInt e = Some v ->
  (v < now)%Z ->
  let st' := snd (constructor now st) in
  pathname st' = "/" /\
  search st' = [] /\
  handleCallback config fetch now' st' = (Throw MalformedCallback, st').
Proof.
  intros Hpath He Hv Hlt. cbv zeta.
  assert (Hloc : pathname (snd (constructor now st)) = "/" /\
                 search (snd (constructor now st)) = []).
  { rewrite constructor_unfold. cbv zeta.
    rewrite He, (parseInt_truthy e v Hv), Hv. cbn [andb JS.number_gt].
    apply Z.ltb_lt in Hlt. rewrite Hlt.
    unfold logout. run. rewrite Hpath. cbn. auto. }
  destruct Hloc as [Hp Hq]. split; [exact Hp|]. split; [exact Hq|].
  rewrite handleCallback_no_error by (rewrite Hq; reflexivity).
  cbv zeta. rewrite Hq. reflexivity.
Qed.

Lemma constructor_expired_drops_callback_witness :
  let st := page [("access_token", "old"); ("token_expires_at", "1000")]
              [("oauth_state", "expected"); ("oauth_code_verifier", "ver")]
              "/callback" [("code", "abc"); ("state", "expected")] in
  let st' := snd (constructor 2000 st) in
  pathname st' = "/" /\
  search st' = [] /\
  handleCallback demo_config (endpoint 200 "" (Return (bearer "new" None None)))
    2001 st' = (Throw MalformedCallback, st').
Proof.
  apply (constructor_expired_drops_callback demo_config
           (endpoint 200 "" (Return (bearer "new" None None))) 2000 2001
           (page [("access_token", "old"); ("token_expires_at", "1000")]
              [("oauth_state", "expected"); ("oauth_code_verifier", "ver")]
              "/callback" [("code", "abc"); ("state", "expected")])
           "1000" 1000%Z); [reflexivity | reflexivity | reflexivity | lia].
Defined.

Lemma logout_frame (st : State) :
  sessionStorage (snd (logout st)) = sessionStorage st /\
  requests (snd (logout st)) = requests st /\
  href (snd (logout st)) = href st /\
  console (snd (logout st)) = console st /\
  pathname (snd (logout st))
  = (if String.eqb (pathname st) "/callback" then "/" else pathname st) /\
  search (snd (logout st))
  = (if String.eqb (pathname st) "/callback" then [] else search st).
Proof.
  unfold logout. run. destruct (String.eqb _ _); cbn; auto 10.
Qed.

(** X13.  [logout()] on the callback page replaces the location by [/]
    without a query; on any other page the location stays.  It never
    touches [sessionStorage], so a handshake in progress survives it,
    and it sends no request. *)
Theorem logout_location (st : State) :
  (pathname st = "/callback" ->
   pathname (snd (logout st)) = "/" /\ search (snd (logout st)) = []) /\
  (pathname st <> "/callback" ->
   pathname (snd (logout st)) = pathname st /\
   search (snd (logout st)) = search st) /\
  sessionStorage (snd (logout st)) = sessionStorage st /\
  requests (snd (logout st)) = requests st.
Proof.
  destruct (logout_frame st) as (Hss & Hr & _ & _ & Hp & Hq).
  rewrite Hp, Hq, Hss, Hr.
  split; [intros ->; auto|]. split; [|auto].
  intros Hne. apply String.eqb_neq in Hne. rewrite Hne. auto.
Qed.

Lemma logout_location_witness :
  let st := page [("access_token", "tok")] [("oauth_state", "s")]
              "/callback" [("code", "abc"); ("state", "s")] in
  (pathname (snd (logout st)) = "/" /\ search (snd (logout st)) = []) /\
  (pathname (snd (logout (signed_in "tok" "ref" "9000"))) = "/" /\
   search (snd (logout (signed_in "tok" "ref" "9000"))) = []).
Proof.
  split.
  - apply (proj1 (logout_location _)). reflexivity.
  - apply (proj1 (proj2 (logout_location (signed_in "tok" "ref" "9000")))).
    vm_compute. discriminate.
Defined.

Lemma remove_tokens_twice (m : gmap string string) :
  delete "token_expires_at" (delete "refresh_token" (delete "access_token"
    (delete "token_expires_at" (delete "refresh_token" (delete "access_token" m)))))
  = delete "token_expires_at" (delete "refresh_token" (delete "access_token" m)).
Proof.
  apply map_eq. intros k.
  destruct (decide (k = "token_expires_at")) as [E1|N1];
    destruct (decide (k = "refresh_token")) as [E2|N2];
    destruct (decide (k = "access_token")) as [E3|N3];
    simplify_map_eq; reflexivity.
Qed.

Lemma logout_run (st : State) :
  logout st =
  (Return tt,
   mkState None None
     (delete "token_expires_at"
        (delete "refresh_token" (delete "access_token" (localStorage st))))
     (sessionStorage st)
     (if String.eqb (pathname st) "/callback" then "/" else pathname st)
     (if String.eqb (pathname st) "/callback" then [] else search st)
     (href st) (requests st) (console st)).
Proof.
  unfold logout. run. destruct (String.eqb _ _); reflexivity.
Qed.

(** X14.  Logging out twice is logging out once. *)
Theorem logout_idempotent (st : State) :
  logout (snd (logout st)) = logout st.
Proof.
  rewrite (logout_run st). cbn [snd]. rewrite logout_run.
  cbn [localStorage sessionStorage pathname search href requests console].
  rewrite remove_tokens_twice.
  destruct (String.eqb (pathname st) "/callback") eqn:E.
  - change (String.eqb "/" "/callback") with false. reflexivity.
  - rewrite E. reflexivity.
Qed.

(** X15.  A logout holds across reloads: a client constructed after
    [logout()], at whatever time, is not authenticated and holds no
    refresh token. *)
Theorem logout_then_reload (now : Z) (st : State) :
  let st' := snd (constructor now (snd (logout st))) in
  isAuthenticated st' = false /\
  getAccessToken st' = None /\
  refreshToken st' = None /\
  localStorage st' = localStorage (snd (logout st)).
Proof.
  cbv zeta. rewrite constructor_unfold. cbv zeta.
  pose proof (logout_durable st) as Hd. unfold durable_tokens in Hd.
  injection Hd as H1 H2 H3. rewrite H1, H2, H3. cbn. auto.
Qed.

(** ** Starting the handshake *)

Lemma truthy_of_length (s : string) (n : nat) :
  String.length s = S n -> JS.truthy s = true.
Proof.
  destruct s; [discriminate | reflexivity].
Qed.

Lemma authorize_unfold
    (TextEncoder_encode : string -> list byte)
    (subtle_digest_SHA256 : list byte -> list byte)
    (config : AuthConfig) (rng_state rng_verifier : nat -> byte) (st : State) :
  authorize TextEncoder_encode subtle_digest_SHA256 config rng_state rng_verifier st =
  let state := generateRandomString 32 rng_state in
  let codeVerifier := generateRandomString 128 rng_verifier in
  let params :=
    [ ("response_type", "code");
      ("client_id", clientId config);
      ("redirect_uri", redirectUri config);
      ("state", state);
      ("code_challenge",
       base64url (subtle_digest_SHA256 (TextEncoder_encode codeVerifier)));
      ("code_challenge_method", "S256");
      ("scope", if JS.truthy_opt (scope config)
                then default "" (scope config) else "read") ] in
  (Return tt,
   with_href (Some (authorizationEndpoint config, params))
     (with_sessionStorage
        (<["oauth_code_verifier" := codeVerifier]>
           (<["oauth_state" := state]> (sessionStorage st))) st)).
Proof.
  unfold authorize, generateCodeChallenge, base64url. run. cbv zeta.
  rewrite replace_chain_base64url. reflexivity.
Qed.

(** X16.  [authorize()] stores a fresh state of 32 characters and a fresh
    verifier of 128 characters in [sessionStorage], whatever handshake
    was stored before, and starts a navigation to the authorization
    endpoint whose [state] is the stored state and whose
    [code_challenge] is the base64url SHA-256 digest of the stored
    verifier, with method [S256]; the scope is [read] when none is
    configured.  It installs no token and sends no request. *)
Theorem authorize_starts_handshake
    (TextEncoder_encode : string -> list byte)
    (subtle_digest_SHA256 : list byte -> list byte)
    (config : AuthConfig) (rng_state rng_verifier : nat -> byte) (st : State) :
  let result :=
    authorize TextEncoder_encode subtle_digest_SHA256 config rng_state rng_verifier st in
  let state := generateRandomString 32 rng_state in
  let codeVerifier := generateRandomString 128 rng_verifier in
  fst result = Return tt /\
  String.length state = 32%nat /\
  String.length codeVerifier = 128%nat /\
  sessionStorage (snd result) !! "oauth_state" = Some state /\
  sessionStorage (snd result) !! "oauth_code_verifier" = Some codeVerifier /\
  (exists params,
      href (snd result) = Some (authorizationEndpoint config, params) /\
      Host.params_get "response_type" params = Some "code" /\
      Host.params_get "client_id" params = Some (clientId config) /\
      Host.params_get "redirect_uri" params = Some (redirectUri config) /\
      Host.params_get "state" params = Some state /\
      Host.params_get "code_challenge" params
      = Some (base64url (subtle_digest_SHA256 (TextEncoder_encode codeVerifier))) /\
      Host.params_get "code_challenge_method" params = Some "S256" /\
      Host.params_get "scope" params
      = Some (match scope config with
              | Some (String c s) => String c s
              | _ => "read"
              end)) /\
  accessToken (snd result) = accessToken st /\
  refreshToken (snd result) = refreshToken st /\
  localStorage (snd result) = localStorage st /\
  requests (snd result) = requests st.
Proof.
  cbv zeta. rewrite authorize_unfold. cbv zeta. cbn [fst snd].
  split; [reflexivity|].
  split; [apply generateRandomString_shape|].
  split; [apply generateRandomString_shape|].
  cbn. split; [simplify_map_eq; reflexivity|].
  split; [simplify_map_eq; reflexivity|].
  split; [|auto].
  eexists. split; [reflexivity|]. cbn.
  repeat split.
  destruct (scope config) as [[|c s]|]; reflexivity.
Qed.

(** X17.  The handshake that [authorize()] starts is the one the callback
    completes.  In any later state with the [sessionStorage] that
    [authorize()] left, a callback query without a non-empty [error],
    with a non-empty [code] and with the state that was sent passes all
    checks: exactly one request goes to the token endpoint, carrying
    that code and the verifier whose challenge was sent, and the
    handshake is used up. *)
Theorem authorize_then_callback
    (TextEncoder_encode : string -> list byte)
    (subtle_digest_SHA256 : list byte -> list byte)
    (config : AuthConfig) (rng_state rng_verifier : nat -> byte)
    (fetch : Request -> FetchResult) (now : Z) (st later : State) (code : string) :
  sessionStorage later
  = sessionStorage
      (snd (authorize TextEncoder_encode subtle_digest_SHA256 config
              rng_state rng_verifier st)) ->
  JS.truthy_opt (Host.params_get "error" (search later)) = false ->
  Host.params_get "code" (search later) = Some code ->
  JS.truthy code = true ->
  Host.params_get "state" (search later) = Some (generateRandomString 32 rng_state) ->
  let st' := snd (handleCallback config fetch now later) in
  requests st'
  = (requests later
       ++ [token_request config code (generateRandomString 128 rng_verifier)])%list /\
  sessionStorage st' !! "oauth_state" = None /\
  sessionStorage st' !! "oauth_code_verifier" = None.
Proof.
  intros Hss He Hc Htc Hs. cbv zeta.
  rewrite authorize_unfold in Hss. cbv zeta in Hss. cbn in Hss.
  assert (Hp : handshake_pending later code (generateRandomString 32 rng_state)
                 (generateRandomString 128 rng_verifier)).
  { unfold handshake_pending. rewrite Hss.
    destruct (generateRandomString_shape 32 rng_state) as [Hl1 _].
    destruct (generateRandomString_shape 128 rng_verifier) as [Hl2 _].
    repeat split; try assumption.
    - exact (truthy_of_length _ _ Hl1).
    - simplify_map_eq. reflexivity.
    - simplify_map_eq. reflexivity.
    - exact (truthy_of_length _ _ Hl2). }
  rewrite (handleCallback_pending _ _ _ _ _ _ _ Hp).
  match goal with |- context [exchangeCodeForToken ?c ?f ?n ?a ?b ?s] =>
    destruct (exchange_sends_one_request c f n a b s) as (Hr & Hss' & _)
  end.
  rewrite Hr, Hss'. cbn. repeat split; simplify_map_eq; reflexivity.
Qed.

Lemma authorize_then_callback_witness :
  let rng_state : nat -> byte := fun i => if Nat.even i then xa7 else x3c in
  let rng_verifier : nat -> byte := fun i => if Nat.even i then x5e else xd1 in
  let left :=
    snd (authorize list_byte_of_string (fun data => data) demo_config
           rng_state rng_verifier (page [] [] "/" [])) in
  let later :=
    with_location "/callback"
      [("code", "abc"); ("state", generateRandomString 32 rng_state)] left in
  let st' :=
    snd (handleCallback demo_config
           (endpoint 200 "" (Return (bearer "new" None None))) 5000 later) in
  requests st'
  = [token_request demo_config "abc" (generateRandomString 128 rng_verifier)] /\
  sessionStorage st' !! "oauth_state" = None /\
  sessionStorage st' !! "oauth_code_verifier" = None.
Proof.
  cbv zeta.
  apply (authorize_then_callback list_byte_of_string (fun data => data) demo_config
           (fun i => if Nat.even i then xa7 else x3c)
           (fun i => if Nat.even i then x5e else xd1)
           (endpoint 200 "" (Return (bearer "new" None None))) 5000
           (page [] [] "/" [])
           (with_location "/callback"
              [("code", "abc");
               ("state", generateRandomString 32 (fun i => if Nat.even i then xa7 else x3c))]
              (snd (authorize list_byte_of_string (fun data => data) demo_config
                      (fun i => if Nat.even i then xa7 else x3c)
                      (fun i => if Nat.even i then x5e else xd1)
                      (page [] [] "/" []))))
           "abc"); reflexivity.
Defined.

(** ** The shape of the challenge *)

Lemma b64_char_alphabet (v : N) :
  (v < 64)%N -> is_base64_char (Host.b64_char v) = true.
Proof.
  intros Hv. unfold Host.b64_char.
  assert (Hn : (N.to_nat v < 64)%nat) by lia.
  remember (N.to_nat v) as n eqn:E. clear E Hv v.
  do 64 (destruct n as [|n]; [reflexivity|]). lia.
Qed.

Lemma base64url_step (c : ascii) (rest : string) :
  is_base64_char c = true ->
  exists c', base64url_of_base64 (String c rest)
             = String c' (base64url_of_base64 rest) /\
             is_base64url_char c' = true.
Proof.
  intros Hc. cbn [base64url_of_base64].
  destruct (Ascii.eqb_spec c "=") as [->|_]; [discriminate|].
  destruct (Ascii.eqb_spec c "+") as [->|Hplus]; [eexists; split; reflexivity|].
  destruct (Ascii.eqb_spec c "/") as [->|Hslash]; [eexists; split; reflexivity|].
  exists c. split; [reflexivity|].
  unfold is_base64_char, is_base64url_char in *. cbv zeta in *.
  assert (N_of_ascii c <> 43%N).
  { intros E. apply Hplus. rewrite <- (ascii_N_embedding c), E. reflexivity. }
  assert (N_of_ascii c <> 47%N).
  { intros E. apply Hslash. rewrite <- (ascii_N_embedding c), E. reflexivity. }
  repeat rewrite orb_true_iff in *. repeat rewrite andb_true_iff in *.
  repeat rewrite N.leb_le in *. repeat rewrite N.eqb_eq in *. lia.
Qed.

Ltac sextet :=
  apply b64_char_alphabet;
  repeat match goal with
         | |- context [N_of_ascii ?a] =>
             lazymatch goal with
             | _ : (N_of_ascii a < 256)%N |- _ => fail
             | _ => pose proof (N_ascii_bounded a)
             end
         end;
  repeat match goal with
         | |- context [(?x / ?k)%N] =>
             lazymatch goal with
             | _ : (x / k * k <= x)%N |- _ => fail
             | _ => assert (x / k * k <= x)%N
                      by (rewrite N.mul_comm; apply N.Div0.mul_div_le)
             end
         | |- context [(?x mod ?k)%N] =>
             lazymatch goal with
             | _ : (x mod k < k)%N |- _ => fail
             | _ => assert (x mod k < k)%N by (apply N.mod_lt; lia)
             end
         end;
  lia.

Lemma challenge_shape_1 (a : ascii) : challenge_shape (String a "").
Proof.
  unfold challenge_shape. cbn [Host.btoa].
  destruct (base64url_step (Host.b64_char (N_of_ascii a / 4))
              (String (Host.b64_char (N_of_ascii a mod 4 * 16)) "==")
              ltac:(sextet)) as (c1 & -> & H1).
  destruct (base64url_step (Host.b64_char (N_of_ascii a mod 4 * 16)) "=="
              ltac:(sextet)) as (c2 & -> & H2).
  cbn. rewrite H1, H2. split; reflexivity.
Qed.

Lemma challenge_shape_2 (a b : ascii) : challenge_shape (String a (String b "")).
Proof.
  unfold challenge_shape. cbn [Host.btoa].
  repeat match goal with
         | |- context [base64url_of_base64 (String (Host.b64_char ?v) ?rest)] =>
             let c := fresh "c" in
             let H := fresh "H" in
             destruct (base64url_step (Host.b64_char v) rest ltac:(sextet))
               as (c & -> & H)
         end.
  cbn. rewrite H, H0, H1. split; reflexivity.
Qed.

Lemma challenge_shape_3 (a b c : ascii) (s : string) :
  challenge_shape s -> challenge_shape (String a (String b (String c s))).
Proof.
  unfold challenge_shape. intros [Hlen Hchars]. cbn [Host.btoa].
  repeat match goal with
         | |- context [base64url_of_base64 (String (Host.b64_char ?v) ?rest)] =>
             let c := fresh "c" in
             let H := fresh "H" in
             destruct (base64url_step (Host.b64_char v) rest ltac:(sextet))
               as (c & -> & H)
         end.
  cbn [String.length JS.all_chars]. rewrite Hlen, Hchars, H, H0, H1, H2.
  split; [|reflexivity].
  replace (4 * S (S (S (String.length s))) + 2)%nat
    with (4 * String.length s + 2 + 4 * 3)%nat by lia.
  rewrite Nat.div_add by lia. lia.
Qed.

Lemma challenge_shape_all (s : string) :
  challenge_shape s /\
  (forall a, challenge_shape (String a s)) /\
  (forall a b, challenge_shape (String a (String b s))).
Proof.
  induction s as [|c s (IH0 & IH1 & IH2)].
  - split; [split; reflexivity|].
    split; [apply challenge_shape_1 | apply challenge_shape_2].
  - split; [apply IH1|]. split; [intros a; apply IH2|].
    intros a b. apply challenge_shape_3, IH0.
Qed.

Lemma fromCharCode_length (bytes : list byte) :
  String.length (Host.fromCharCode bytes) = length bytes.
Proof.
  induction bytes as [|b bytes IH]; [reflexivity|].
  cbn. f_equal. exact IH.
Qed.

(** X18.  The challenge is made of letters, digits, [-] and [_] only, for
    every digest; for a digest of 32 bytes, as SHA-256 gives, it has
    exactly 43 characters. *)
Theorem generateCodeChallenge_shape
    (TextEncoder_encode : string -> list byte)
    (subtle_digest_SHA256 : list byte -> list byte)
    (codeVerifier : string) (st : State) :
  exists challenge,
    fst (generateCodeChallenge TextEncoder_encode subtle_digest_SHA256
           codeVerifier st) = Return challenge /\
    JS.all_chars is_base64url_char challenge = true /\
    (length (subtle_digest_SHA256 (TextEncoder_encode codeVerifier)) = 32%nat ->
     String.length challenge = 43%nat).
Proof.
  unfold generateCodeChallenge, ret. cbv zeta. cbn [fst].
  eexists. split; [reflexivity|].
  rewrite replace_chain_base64url.
  destruct (challenge_shape_all
              (Host.fromCharCode (subtle_digest_SHA256 (TextEncoder_encode codeVerifier))))
    as ((Hlen & Hchars) & _).
  split; [exact Hchars|].
  intros H32. rewrite Hlen, fromCharCode_length, H32. reflexivity.
Qed.

Lemma generateCodeChallenge_shape_witness :
  exists challenge,
    fst (generateCodeChallenge list_byte_of_string (fun _ => repeat xff 32)
           "verifier" (page [] [] "/" [])) = Return challenge /\
    JS.all_chars is_base64url_char challenge = true /\
    String.length challenge = 43%nat.
Proof.
  destruct (generateCodeChallenge_shape list_byte_of_string
              (fun _ => repeat xff 32) "verifier" (page [] [] "/" []))
    as (challenge & Hc & Ha & Hl).
  exists challenge. split; [exact Hc|]. split; [exact Ha|].
  apply Hl. reflexivity.
Defined.

(** ** Describing a decodable token *)

Section DescribeFailures.

Variable any : Type.
Variable atob : string -> outcome string.
Variable JSON_parse : string -> outcome any.
Variable get_property : any -> string -> outcome any.
Variable is_truthy : any -> bool.
Variable literal : string -> any.
Variable seconds_toISOString : any -> outcome string.

(** X19.  [getTokenInfo()] never throws and changes nothing, whatever
    [atob], [JSON.parse], the property reads and the date formatting
    do: every exception raised while decoding is caught. *)
Theorem getTokenInfo_never_throws (st : State) :
  exists info,
    getTokenInfo any atob JSON_parse get_property is_truthy literal
      seconds_toISOString st = (Return info, st).
Proof.
  apply getTokenInfo_returns.
Qed.

(** X20.  A held token whose second segment is not base64, or decodes to
    what is not JSON, gets the basic descriptor: the first 20 characters
    of the token followed by [...], and the type [Bearer]. *)
Theorem getTokenInfo_bad_payload (st : State) (token payload : string) :
  accessToken st = Some token ->
  JS.truthy token = true ->
  JS.split "." token !! 1%nat = Some payload ->
  JS.truthy payload = true ->
  (match atob (JS.replace_all "_" "/" (JS.replace_all "-" "+" payload)) with
   | Return raw => exists e, JSON_parse raw = Throw e
   | Throw _ => True
   end) ->
  getTokenInfo any atob JSON_parse get_property is_truthy literal
    seconds_toISOString st
  = (Return (Some (BasicInfo (JS.prefix 20 token +:+ "...") "Bearer")), st).
Proof.
  apply getTokenInfo_undecodable_payload.
Qed.

End DescribeFailures.

Lemma getTokenInfo_bad_payload_witness :
  getTokenInfo string (fun _ => Throw (HostError "InvalidCharacterError" ""))
    (fun s => Return s) (fun v _ => Return v) JS.truthy (fun s => s)
    (fun _ => Return "")
    (with_accessToken (Some "not.a jwt.at-all-but-long-enough") (page [] [] "/" []))
  = (Return (Some (BasicInfo "not.a jwt.at-all-but..." "Bearer")),
     with_accessToken (Some "not.a jwt.at-all-but-long-enough") (page [] [] "/" [])).
Proof.
  apply (getTokenInfo_bad_payload string
           (fun _ => Throw (HostError "InvalidCharacterError" ""))
           (fun s => Return s) (fun v _ => Return v) JS.truthy (fun s => s)
           (fun _ => Return "")
           (with_accessToken (Some "not.a jwt.at-all-but-long-enough")
              (page [] [] "/" []))
           "not.a jwt.at-all-but-long-enough" "a jwt");
    try reflexivity; exact I.
Defined.

Section DescribeClaims.

Variable any : Type.
Variable atob : string -> outcome string.
Variable JSON_parse : string -> outcome any.
Variable get_property : any -> string -> outcome any.
Variable is_truthy : any -> bool.
Variable literal : string -> any.
Variable seconds_toISOString : any -> outcome string.

(** X21.  For a held token whose second segment decodes to claims,
    [getTokenInfo()] returns the descriptor of the claims: the first 20
    characters of the token followed by [...]; the expiry as a date when
    [exp] is truthy and ["Unknown"] otherwise; the [scope] claim or
    ["Unknown"]; and as user the [sub] claim, else the [username]
    claim, else ["Unknown"]. *)
Theorem getTokenInfo_claims (st : State) (token payload raw iso : string)
    (decoded exp scope sub username : any) :
  accessToken st = Some token ->
  JS.truthy token = true ->
  JS.split "." token !! 1%nat = Some payload ->
  JS.truthy payload = true ->
  atob (JS.replace_all "_" "/" (JS.replace_all "-" "+" payload)) = Return raw ->
  JSON_parse raw = Return decoded ->
  get_property decoded "exp" = Return exp ->
  (is_truthy exp = true -> seconds_toISOString exp = Return iso) ->
  get_property decoded "scope" = Return scope ->
  get_property decoded "sub" = Return sub ->
  (is_truthy sub = false -> get_property decoded "username" = Return username) ->
  getTokenInfo any atob JSON_parse get_property is_truthy literal
    seconds_toISOString st
  = (Return (Some (ClaimsInfo
                     (JS.prefix 20 token +:+ "...")
                     (if is_truthy exp then iso else "Unknown")
                     (if is_truthy scope then scope else literal "Unknown")
                     (if is_truthy sub then sub
                      else if is_truthy username then username
                           else literal "Unknown"))),
     st).
Proof.
  intros Hheld Htok Hsplit Hpay Hatob Hjson Hexp Hiso Hscope Hsub Huser.
  unfold getTokenInfo, describe_claims. run.
  rewrite Hheld. cbn [JS.truthy_opt default from_option id]. rewrite Htok.
  cbn [negb]. rewrite Hsplit. cbn [JS.truthy_opt default from_option id].
  rewrite Hpay, Hatob, Hjson, Hexp, Hscope, Hsub.
  destruct (is_truthy exp) eqn:Ee; [rewrite (Hiso eq_refl)|];
    destruct (is_truthy sub) eqn:Es; try rewrite (Huser eq_refl); reflexivity.
Qed.

(** X22.  A held token whose claims cannot be read, because reading a
    property of the decoded value throws (it is [null]) or because a
    truthy [exp] is no valid date, gets the basic descriptor. *)
Theorem getTokenInfo_unreadable_claims (st : State) (token payload raw : string)
    (decoded : any) :
  accessToken st = Some token ->
  JS.truthy token = true ->
  JS.split "." token !! 1%nat = Some payload ->
  JS.truthy payload = true ->
  atob (JS.replace_all "_" "/" (JS.replace_all "-" "+" payload)) = Return raw ->
  JSON_parse raw = Return decoded ->
  (match get_property decoded "exp" with
   | Return exp => is_truthy exp = true /\
                   exists e, seconds_toISOString exp = Throw e
   | Throw _ => True
   end) ->
  getTokenInfo any atob JSON_parse get_property is_truthy literal
    seconds_toISOString st
  = (Return (Some (BasicInfo (JS.prefix 20 token +:+ "...") "Bearer")), st).
Proof.
  intros Hheld Htok Hsplit Hpay Hatob Hjson Hfail.
  unfold getTokenInfo, describe_claims. run.
  rewrite Hheld. cbn [JS.truthy_opt default from_option id]. rewrite Htok.
  cbn [negb]. rewrite Hsplit. cbn [JS.truthy_opt default from_option id].
  rewrite Hpay, Hatob, Hjson.
  destruct (get_property decoded "exp") as [exp|e]; [|reflexivity].
  destruct Hfail as [Ht [e He]]. rewrite Ht, He. reflexivity.
Qed.

End DescribeClaims.

Lemma getTokenInfo_claims_witness :
  getTokenInfo string (fun s => Return s) (fun s => Return s)
    (fun _ name => Return (if String.eqb name "username" then "alice" else ""))
    JS.truthy (fun s => s) (fun _ => Return "1970-01-01T00:00:00.000Z")
    (with_accessToken (Some "header.payload.signature") (page [] [] "/" []))
  = (Return (Some (ClaimsInfo "header.payload.signa..." "Unknown" "Unknown" "alice")),
     with_accessToken (Some "header.payload.signature") (page [] [] "/" [])).
Proof.
  apply (getTokenInfo_claims string (fun s => Return s) (fun s => Return s)
           (fun _ name => Return (if String.eqb name "username" then "alice" else ""))
           JS.truthy (fun s => s) (fun _ => Return "1970-01-01T00:00:00.000Z")
           (with_accessToken (Some "header.payload.signature") (page [] [] "/" []))
           "header.payload.signature" "payload" "payload" ""
           "payload" "" "" "" "alice");
    try reflexivity; discriminate.
Defined.

Lemma getTokenInfo_unreadable_claims_witness :
  getTokenInfo (option string) (fun s => Return s) (fun _ => Return None)
    (fun v _ => match v with
                | Some _ => Return v
                | None => Throw (HostError "TypeError" "Cannot read properties of null")
                end)
    (fun v => JS.truthy_opt v) (fun s => Some s) (fun _ => Return "")
    (with_accessToken (Some "header.bnVsbA.signature") (page [] [] "/" []))
  = (Return (Some (BasicInfo "header.bnVsbA.signat..." "Bearer")),
     with_accessToken (Some "header.bnVsbA.signature") (page [] [] "/" [])).
Proof.
  apply (getTokenInfo_unreadable_claims (option string)
           (fun s => Return s) (fun _ => Return None)
           (fun v _ => match v with
                       | Some _ => Return v
                       | None => Throw (HostError "TypeError"
                                          "Cannot read properties of null")
                       end)
           (fun v => JS.truthy_opt v) (fun s => Some s) (fun _ => Return "")
           (with_accessToken (Some "header.bnVsbA.signature") (page [] [] "/" []))
           "header.bnVsbA.signature" "bnVsbA" "bnVsbA" None);
    try reflexivity; exact I.
Defined.

(** * Properties of the API client *)

Section ApiProperties.

Variable any : Type.
Variable fetch : Api.Sent -> outcome (Api.HttpResponse any).

(** X23.  Without an access token, [null] or empty, [callProtectedApi()]
    and [callAdminApi()] answer 401 "No access token available" at once:
    [fetch] is not called. *)
Theorem api_guarded_without_token (c : Api.Client) :
  JS.truthy_opt (Api.accessToken c) = false ->
  Api.callProtectedApi fetch c = (Api.unauthenticated, c) /\
  Api.callAdminApi fetch c = (Api.unauthenticated, c) /\
  Api.status (Api.unauthenticated (any := any)) = 401%N /\
  Api.requests (snd (Api.callProtectedApi fetch c)) = Api.requests c /\
  Api.requests (snd (Api.callAdminApi fetch c)) = Api.requests c.
Proof.
  intros H. unfold Api.callProtectedApi, Api.callAdminApi. rewrite H. cbn. auto.
Qed.

(** X24.  [callPublicApi()] never sends the access token: its one request
    goes to [baseUrl + "/api/v1/public"] with method GET and the
    [Content-Type] header alone, whether or not a token is held. *)
Theorem api_public_call_sends_no_token (c : Api.Client) :
  Api.requests (snd (Api.callPublicApi fetch c))
  = (Api.requests c ++
     [ {| Api.sent_url := Api.baseUrl c +:+ "/api/v1/public";
          Api.sent_method := Some "GET";
          Api.sent_headers := {[ "Content-Type" := "application/json" ]};
          Api.sent_body := None |} ])%list /\
  Api.accessToken (snd (Api.callPublicApi fetch c)) = Api.accessToken c.
Proof.
  unfold Api.callPublicApi, Api.makeRequest, Api.request_headers. cbv zeta.
  cbn [andb Api.GET Api.init_headers Api.init_method Api.init_body].
  rewrite (left_id_L ∅ (∪)).
  destruct (fetch _) as [response|e]; [destruct (Api.read_response response)|];
    cbn; auto.
Qed.

(** X25.  With a non-empty access token, [callProtectedApi()] and
    [callAdminApi()] send one GET request each, to
    [baseUrl + "/api/v1/protected"] and [baseUrl + "/api/v1/admin"],
    with the header [Authorization: Bearer <token>] beside
    [Content-Type]. *)
Theorem api_guarded_sends_bearer (c : Api.Client) (token : string) :
  Api.accessToken c = Some token ->
  JS.truthy token = true ->
  let headers : gmap string string :=
    <["Authorization" := "Bearer " +:+ token]>
      {[ "Content-Type" := "application/json" ]} in
  Api.requests (snd (Api.callProtectedApi fetch c))
  = (Api.requests c ++
     [ {| Api.sent_url := Api.baseUrl c +:+ "/api/v1/protected";
          Api.sent_method := Some "GET";
          Api.sent_headers := headers;
          Api.sent_body := None |} ])%list /\
  Api.requests (snd (Api.callAdminApi fetch c))
  = (Api.requests c ++
     [ {| Api.sent_url := Api.baseUrl c +:+ "/api/v1/admin";
          Api.sent_method := Some "GET";
          Api.sent_headers := headers;
          Api.sent_body := None |} ])%list.
Proof.
  intros Hheld Ht. cbv zeta.
  unfold Api.callProtectedApi, Api.callAdminApi, Api.makeRequest,
    Api.request_headers.
  rewrite Hheld. cbn [JS.truthy_opt]. rewrite Ht. cbv zeta.
  cbn [negb andb Api.GET Api.init_headers Api.init_method Api.init_body
       default from_option id].
  rewrite (left_id_L ∅ (∪)).
  split.
  - destruct (fetch _) as [response|e]; [destruct (Api.read_response response)|];
      reflexivity.
  - destruct (fetch _) as [response|e]; [destruct (Api.read_response response)|];
      reflexivity.
Qed.

(** The request that [makeRequest] builds. *)
Lemma api_makeRequest_cases (url : string) (options : Api.RequestInit)
    (requiresAuth : bool) (c : Api.Client) :
  let sent := {| Api.sent_url := Api.baseUrl c +:+ url;
                 Api.sent_method := Api.init_method options;
                 Api.sent_headers := Api.request_headers c options requiresAuth;
                 Api.sent_body := Api.init_body options |} in
  let failure e :=
    {| Api.data := None;
       Api.error := Some (Api.message_of e);
       Api.status := 503%N;
       Api.message := Some "Service unavailable (network error)" |} in
  fst (Api.makeRequest fetch url options requiresAuth c)
  = match fetch sent with
    | Return response =>
        match Api.read_response response with
        | Return r => r
        | Throw e => failure e
        end
    | Throw e => failure e
    end /\
  Api.requests (snd (Api.makeRequest fetch url options requiresAuth c))
  = (Api.requests c ++ [sent])%list.
Proof.
  cbv zeta. unfold Api.makeRequest. cbv zeta.
  destruct (fetch _) as [response|e].
  - destruct (Api.read_response response) as [r|e]; [auto|].
    destruct e; cbn; auto.
  - destruct e; cbn; auto.
Qed.

(** X26.  A failed request never throws out of the API client.  When
    [fetch] rejects, or when the response announces JSON and its body
    does not parse, every call answers status 503 with the message of
    the error, whatever the status of the response was. *)
Theorem api_failure_is_503 (url : string) (options : Api.RequestInit)
    (requiresAuth : bool) (c : Api.Client) (e : exn) :
  let sent := {| Api.sent_url := Api.baseUrl c +:+ url;
                 Api.sent_method := Api.init_method options;
                 Api.sent_headers := Api.request_headers c options requiresAuth;
                 Api.sent_body := Api.init_body options |} in
  (fetch sent = Throw e \/
   exists response contentType,
     fetch sent = Return response /\
     Api.http_content_type response = Some contentType /\
     Api.includes "application/json" contentType = true /\
     Api.http_json response = Throw e) ->
  fst (Api.makeRequest fetch url options requiresAuth c)
  = {| Api.data := None;
       Api.error := Some (Api.message_of e);
       Api.status := 503%N;
       Api.message := Some "Service unavailable (network error)" |}.
Proof.
  cbv zeta. intros H.
  destruct (api_makeRequest_cases url options requiresAuth c) as [Hr _].
  cbv zeta in Hr. rewrite Hr. clear Hr.
  destruct H as [-> | (response & contentType & -> & Hct & Hinc & Hjson)];
    [reflexivity|].
  unfold Api.read_response. cbv zeta. rewrite Hct.
  cbn [JS.truthy_opt default from_option id]. rewrite Hinc, Hjson.
  assert (Ht : JS.truthy contentType = true).
  { destruct contentType; [discriminate | reflexivity]. }
  rewrite Ht. reflexivity.
Qed.

(** X27.  The answer of the server is handed over as it is.  When the
    response announces JSON and its body parses, the result carries the
    parsed value, otherwise it carries the text; the status and the
    status text are those of the response, also for an error status,
    and the result has no [error]. *)
Theorem api_response_passthrough (url : string) (options : Api.RequestInit)
    (requiresAuth : bool) (c : Api.Client) (response : Api.HttpResponse any) :
  fetch {| Api.sent_url := Api.baseUrl c +:+ url;
           Api.sent_method := Api.init_method options;
           Api.sent_headers := Api.request_headers c options requiresAuth;
           Api.sent_body := Api.init_body options |} = Return response ->
  let announced :=
    match Api.http_content_type response with
    | Some contentType => Api.includes "application/json" contentType
    | None => false
    end in
  (forall v, announced = true -> Api.http_json response = Return v ->
     fst (Api.makeRequest fetch url options requiresAuth c)
     = {| Api.data := Some (Api.Json v); Api.error := None;
          Api.status := Api.http_status response;
          Api.message := Some (Api.http_statusText response) |}) /\
  (forall t, announced = false -> Api.http_text response = Return t ->
     fst (Api.makeRequest fetch url options requiresAuth c)
     = {| Api.data := Some (Api.Text t); Api.error := None;
          Api.status := Api.http_status response;
          Api.message := Some (Api.http_statusText response) |}).
Proof.
  intros Hf. cbv zeta.
  destruct (api_makeRequest_cases url options requiresAuth c) as [Hr _].
  cbv zeta in Hr. rewrite Hr, Hf. clear Hr.
  unfold Api.read_response. cbv zeta.
  assert (Hann : JS.truthy_opt (Api.http_content_type response)
                 && Api.includes "application/json"
                      (default "" (Api.http_content_type response))
                 = match Api.http_content_type response with
                   | Some contentType => Api.includes "application/json" contentType
                   | None => false
                   end).
  { destruct (Api.http_content_type response) as [[|ch s]|]; reflexivity. }
  rewrite Hann. split.
  - intros v -> ->. reflexivity.
  - intros t -> ->. reflexivity.
Qed.

End ApiProperties.

Lemma api_guarded_without_token_witness :
  Api.callProtectedApi (any := string)
    (fun _ => Throw (HostError "TypeError" "Failed to fetch"))
    (Api.setAccessToken (Some "") (Api.constructor "http://localhost:8080"))
  = (Api.unauthenticated,
     Api.setAccessToken (Some "") (Api.constructor "http://localhost:8080")).
Proof.
  apply (api_guarded_without_token string
           (fun _ => Throw (HostError "TypeError" "Failed to fetch"))
           (Api.setAccessToken (Some "") (Api.constructor "http://localhost:8080"))).
  reflexivity.
Defined.

Lemma api_guarded_sends_bearer_witness :
  Api.requests
    (snd (Api.callProtectedApi (any := string)
            (fun _ => Throw (HostError "TypeError" "Failed to fetch"))
            (Api.setAccessToken (Some "tok")
               (Api.constructor "http://localhost:8080"))))
  = [ {| Api.sent_url := "http://localhost:8080/api/v1/protected";
         Api.sent_method := Some "GET";
         Api.sent_headers :=
           <["Authorization" := "Bearer tok"]>
             {[ "Content-Type" := "application/json" ]};
         Api.sent_body := None |} ].
Proof.
  apply (proj1 (api_guarded_sends_bearer string
                  (fun _ => Throw (HostError "TypeError" "Failed to fetch"))
                  (Api.setAccessToken (Some "tok")
                     (Api.constructor "http://localhost:8080"))
                  "tok" eq_refl eq_refl)).
Defined.

Lemma api_failure_is_503_witness :
  fst (Api.makeRequest (any := string)
         (fun _ => Return {| Api.http_status := 200;
                             Api.http_statusText := "OK";
                             Api.http_content_type :=
                               Some "application/json; charset=utf-8";
                             Api.http_json :=
                               Throw (HostError "SyntaxError" "Unexpected end of JSON input");
                             Api.http_text := Return "" |})
         "/api/v1/public" Api.GET false (Api.constructor "http://localhost:8080"))
  = {| Api.data := None;
       Api.error := Some "Unexpected end of JSON input";
       Api.status := 503%N;
       Api.message := Some "Service unavailable (network error)" |}.
Proof.
  apply (api_failure_is_503 string
           (fun _ => Return {| Api.http_status := 200;
                               Api.http_statusText := "OK";
                               Api.http_content_type :=
                                 Some "application/json; charset=utf-8";
                               Api.http_json :=
                                 Throw (HostError "SyntaxError"
                                          "Unexpected end of JSON input");
                               Api.http_text := Return "" |})
           "/api/v1/public" Api.GET false (Api.constructor "http://localhost:8080")
           (HostError "SyntaxError" "Unexpected end of JSON input")).
  right. eexists. exists "application/json; charset=utf-8".
  split; [reflexivity|]. split; [reflexivity|]. split; reflexivity.
Defined.

Lemma api_response_passthrough_witness :
  fst (Api.makeRequest (any := string)
         (fun _ => Return {| Api.http_status := 403;
                             Api.http_statusText := "Forbidden";
                             Api.http_content_type := Some "text/plain";
                             Api.http_json := Throw (HostError "SyntaxError" "");
                             Api.http_text := Return "admin role required" |})
         "/api/v1/admin" Api.GET true
         (Api.setAccessToken (Some "tok") (Api.constructor "http://localhost:8080")))
  = {| Api.data := Some (Api.Text "admin role required"); Api.error := None;
       Api.status := 403%N; Api.message := Some "Forbidden" |}.
Proof.
  apply (proj2 (api_response_passthrough string
           (fun _ => Return {| Api.http_status := 403;
                               Api.http_statusText := "Forbidden";
                               Api.http_content_type := Some "text/plain";
                               Api.http_json := Throw (HostError "SyntaxError" "");
                               Api.http_text := Return "admin role required" |})
           "/api/v1/admin" Api.GET true
           (Api.setAccessToken (Some "tok") (Api.constructor "http://localhost:8080"))
           _ eq_refl) "admin role required"); reflexivity.
Defined.

(** X28.  An API client that is handed [getAccessToken()] of a session
    after [logout()] refuses the protected calls with 401 and does not
    call [fetch]. *)
Theorem api_after_logout (any : Type)
    (fetch : Api.Sent -> outcome (Api.HttpResponse any))
    (st : State) (c : Api.Client) :
  let c' := Api.setAccessToken (getAccessToken (snd (logout st))) c in
  Api.callProtectedApi fetch c' = (Api.unauthenticated, c') /\
  Api.callAdminApi fetch c' = (Api.unauthenticated, c') /\
  Api.requests c' = Api.requests c.
Proof.
  cbv zeta. destruct (logout_fields st) as (_ & Ha & _).
  unfold getAccessToken. rewrite Ha. repeat split.
Qed.

(** * An invariant of the session manager *)

(** X29.  The access token in memory and the [access_token] entry of
    [localStorage] agree.  The constructor and [logout()] establish
    this from any state; [authorize()] keeps it; and [handleCallback()]
    keeps it when it stops at one of its checks, when the exchange
    fails because the request was rejected, the status was not in
    200-299 or the body was not JSON, and when it returns true on a
    body that is a token response. *)
Theorem access_token_stays_in_sync
    (TextEncoder_encode : string -> list byte)
    (subtle_digest_SHA256 : list byte -> list byte)
    (config : AuthConfig) (fetch : Request -> FetchResult) (now : Z)
    (rng_state rng_verifier : nat -> byte) (st : State) :
  access_token_in_sync (snd (constructor now st)) /\
  access_token_in_sync (snd (logout st)) /\
  (access_token_in_sync st ->
   access_token_in_sync
     (snd (authorize TextEncoder_encode subtle_digest_SHA256 config
             rng_state rng_verifier st)) /\
   (callback_stops st \/
    (exists code state verifier e,
        handshake_pending st code state verifier /\
        exchange_fails config fetch code verifier e) \/
    (exists code state verifier response tr,
        handshake_pending st code state verifier /\
        fetch (token_request config code verifier) = Fulfilled response /\
        json response = Return tr /\
        fst (handleCallback config fetch now st) = Return true) ->
    access_token_in_sync (snd (handleCallback config fetch now st)))).
Proof.
  unfold access_token_in_sync.
  assert (Hlogout : forall s, accessToken (snd (logout s))
                              = localStorage (snd (logout s)) !! "access_token").
  { intros s. destruct (logout_fields s) as (_ & Ha & _).
    pose proof (logout_durable s) as Hd. unfold durable_tokens in Hd.
    injection Hd as H1 _ _. congruence. }
  split; [|split; [apply Hlogout|]].
  - rewrite constructor_unfold. cbv zeta.
    destruct (localStorage st !! "token_expires_at") as [e|]; [|reflexivity].
    destruct (JS.truthy e && JS.number_gt now (JS.parseInt e));
      [apply Hlogout | reflexivity].
  - intros Hsync. split.
    + rewrite authorize_unfold. cbv zeta. exact Hsync.
    + intros _.
      destruct (JS.truthy_opt (Host.params_get "error" (search st))) eqn:He.
      * apply truthy_opt_Some in He. destruct He as (err & He & Ht).
        rewrite (handleCallback_error _ _ _ _ _ He Ht). exact Hsync.
      * rewrite (handleCallback_no_error _ _ _ _ He). cbv zeta.
        destruct (negb _ || negb _); [exact Hsync|].
        destruct (negb (bool_decide _)); [exact Hsync|].
        destruct (negb (JS.truthy_opt (sessionStorage st !! "oauth_code_verifier")));
          [exact Hsync|].
        rewrite exchange_cases. cbv zeta.
        destruct (fetch _) as [e|response]; [exact Hsync|].
        destruct (ok response); [|exact Hsync].
        destruct (json response) as [tr|e]; [|exact Hsync].
        rewrite saveTokensToStorage_spec. cbn.
        destruct (refresh_token tr) as [r|], (expires_in tr) as [s|];
          try destruct (JS.truthy r); try destruct (s =? 0)%Z;
          simplify_map_eq; reflexivity.
Qed.

Lemma access_token_stays_in_sync_witness :
  let st := page [("access_token", "tok")]
              [("oauth_state", "expected"); ("oauth_code_verifier", "ver")]
              "/callback" [("code", "abc"); ("state", "expected")] in
  let loaded := snd (constructor 5000 st) in
  access_token_in_sync
    (snd (handleCallback demo_config
            (endpoint 200 "" (Return (bearer "new" None None))) 5000 loaded)).
Proof.
  cbv zeta.
  refine (proj2 (proj2 (proj2
    (access_token_stays_in_sync list_byte_of_string (fun data => data)
       demo_config (endpoint 200 "" (Return (bearer "new" None None))) 5000
       (fun _ => x00) (fun _ => x00) _)) _) _).
  - reflexivity.
  - right. right.
    exists "abc", "expected", "ver",
      {| status := 200; text := ""; json := Return (bearer "new" None None) |},
      (bearer "new" None None).
    split; [repeat split; reflexivity|].
    split; [reflexivity|]. split; reflexivity.
Defined.

(** X30.  For a length that the random source accepts, at most 65536,
    [generateRandomString(length)] has exactly [length] characters for
    every output of the source, each of them a lower-case hexadecimal
    digit or [_], so the state and the verifier need no escaping in a
    URL. *)
Theorem generateRandomString_length (length : nat) (rng : nat -> byte) :
  (N.of_nat length <= 65536)%N ->
  String.length (generateRandomString length rng) = length /\
  JS.all_chars (fun c => JS.is_hex_char c || Ascii.eqb c "_")
    (generateRandomString length rng) = true.
Proof.
  intros _. apply generateRandomString_shape.
Qed.

Lemma generateRandomString_length_witness :
  String.length (generateRandomString 128 (fun i => if Nat.even i then x0b else xf4))
  = 128%nat /\
  JS.all_chars (fun c => JS.is_hex_char c || Ascii.eqb c "_")
    (generateRandomString 128 (fun i => if Nat.even i then x0b else xf4)) = true.
Proof.
  apply (generateRandomString_length 128
           (fun i => if Nat.even i then x0b else xf4)).
  cbn. lia.
Defined.
